(** * grafana-diagram: the style resolver and the panel controller

    A shallow embedding of [src/visualizers/updateDiagramStyle.ts] and of the
    panel controller that drives it, with the properties of the specification
    stated and settled over the embedding.

    - JavaScript numbers are IEEE 754 binary64 values: Rocq's primitive
      [float], compared with [PrimFloat.ltb] and tested with
      [PrimFloat.is_nan], as [<] and [Number.isNaN] do.
    - JavaScript strings are [string]s: the text in UTF-8, a sequence of
      bytes.  Equality, concatenation and containment of texts are those of
      their encodings; a character outside ASCII is the two or three bytes
      that encode it.
    - Objects that the code mutates in place (the metric indicators) live in
      a store, a [list] addressed by index, and are passed around by index.
    - The DOM is a tree of nodes; an element is referred to by its path from
      the root of the document.
    - A call that can throw returns a [completion]; a call that works on
      the document returns an [outcome], which keeps the document as it was
      when an error was thrown.
    - What the browser, d3, the renderer and the host framework compute
      (number formatting, HTML parsing, CSS serialisation, layout) is a field
      of the class [Platform]: theorems hold for every platform.

    The first half of the file holds the definitions, the second half the
    lemmas and theorems. *)

From Stdlib Require Import ZArith Floats Ascii String List Bool Lia DecimalString.
From stdpp Require Import base option list.

Import ListNotations.
Local Open Scope string_scope.
Local Open Scope list_scope.

(** ** JavaScript numbers *)

Module Num.

Definition number := float.

(** [Number.isNaN(x)] *)
Definition isNaN (x : number) : bool := PrimFloat.is_nan x.

(** [x < y] and [x <= y] *)
Definition lt (x y : number) : bool := PrimFloat.ltb x y.
Definition le (x y : number) : bool := PrimFloat.leb x y.

(** [x === y] on numbers. *)
Definition strictEq (x y : number) : bool := PrimFloat.eqb x y.

(** The number value of a mathematical integer: the integer rounded to the
    nearest binary64 value. *)
Definition ofZ (z : Z) : number :=
  SF2Prim (binary_normalize prec emax z 0 false).

(** [Math.max(x, y)]: NaN when either argument is NaN; on a tie the first
    argument unless it carries the sign bit (so that [+0] wins over [-0]). *)
Definition Math_max (x y : number) : number :=
  if isNaN x || isNaN y then PrimFloat.nan
  else if lt x y then y
  else if lt y x then x
  else if get_sign x then y else x.

(** The white space that [parseInt] skips is StrWhiteSpaceChar: the
    characters of WhiteSpace and of LineTerminator.  Those of one byte: TAB,
    LF, VT, FF, CR and the space. *)
Definition isStrWhiteSpace (c : ascii) : bool :=
  let n := nat_of_ascii c in
  (Nat.eqb n 9 || Nat.eqb n 10 || Nat.eqb n 11 || Nat.eqb n 12
   || Nat.eqb n 13 || Nat.eqb n 32)%bool.

(** Of two bytes: U+00A0, the no-break space (C2 A0). *)
Definition isStrWhiteSpace2 (c1 c2 : ascii) : bool :=
  (Nat.eqb (nat_of_ascii c1) 194 && Nat.eqb (nat_of_ascii c2) 160)%bool.

(** Of three bytes: U+1680 (E1 9A 80); U+2000 to U+200A, U+2028, U+2029 and
    U+202F (E2 80 80 to 8A, A8, A9, AF); U+205F (E2 81 9F); U+3000
    (E3 80 80); U+FEFF, the byte order mark (EF BB BF). *)
Definition isStrWhiteSpace3 (c1 c2 c3 : ascii) : bool :=
  let n1 := nat_of_ascii c1 in
  let n2 := nat_of_ascii c2 in
  let n3 := nat_of_ascii c3 in
  ((Nat.eqb n1 225 && Nat.eqb n2 154 && Nat.eqb n3 128)
   || (Nat.eqb n1 226 && Nat.eqb n2 128
       && ((Nat.leb 128 n3 && Nat.leb n3 138)
           || Nat.eqb n3 168 || Nat.eqb n3 169 || Nat.eqb n3 175))
   || (Nat.eqb n1 226 && Nat.eqb n2 129 && Nat.eqb n3 159)
   || (Nat.eqb n1 227 && Nat.eqb n2 128 && Nat.eqb n3 128)
   || (Nat.eqb n1 239 && Nat.eqb n2 187 && Nat.eqb n3 191))%bool.

(** [s] without the white space it starts with. *)
Fixpoint trimStart (s : string) : string :=
  match s with
  | String c1 s1 =>
      if isStrWhiteSpace c1 then trimStart s1
      else
        match s1 with
        | String c2 s2 =>
            if isStrWhiteSpace2 c1 c2 then trimStart s2
            else
              match s2 with
              | String c3 s3 =>
                  if isStrWhiteSpace3 c1 c2 c3 then trimStart s3 else s
              | EmptyString => s
              end
        | EmptyString => s
        end
  | EmptyString => s
  end.

Definition digitValue (c : ascii) : option Z :=
  let n := Z.of_nat (nat_of_ascii c) in
  if ((48 <=? n) && (n <=? 57))%Z then Some (n - 48)%Z else None.

(** The value of the longest prefix of decimal digits; [acc] is the value of
    the digits read so far, [None] before the first one. *)
Fixpoint digitsPrefix (s : string) (acc : option Z) : option Z :=
  match s with
  | String c s' =>
      match digitValue c with
      | Some d => digitsPrefix s' (Some (10 * default 0%Z acc + d)%Z)
      | None => acc
      end
  | EmptyString => acc
  end.

(** [Number.parseInt(s, 10)] *)
Definition parseInt (s : string) : number :=
  let s1 := trimStart s in
  let '(negative, s2) :=
    match s1 with
    | String "-" r => (true, r)
    | String "+" r => (false, r)
    | _ => (false, s1)
    end in
  match digitsPrefix s2 None with
  | None => PrimFloat.nan
  | Some 0%Z => if negative then PrimFloat.neg_zero else PrimFloat.zero
  | Some z => ofZ (if negative then - z else z)%Z
  end.

(** Truthiness of a number: every number but [0], [-0] and NaN. *)
Definition truthy (x : number) : bool :=
  negb (isNaN x || strictEq x 0%float).

End Num.

(** ** The order of the numbers other than NaN

    The comparison of the IEEE specification orders the values other than NaN
    as the lexicographic order of a key: sign class, exponent, mantissa. *)

Definition sf_key (x : spec_float) : Z * Z * Z :=
  match x with
  | S754_infinity true => (-2, 0, 0)
  | S754_finite true m e => (-1, - e, - Z.pos m)
  | S754_zero _ | S754_nan => (0, 0, 0)
  | S754_finite false m e => (1, e, Z.pos m)
  | S754_infinity false => (2, 0, 0)
  end%Z.

Definition key_lt (k k' : Z * Z * Z) : Prop :=
  let '(a, b, c) := k in
  let '(a', b', c') := k' in
  (a < a' \/ (a = a' /\ (b < b' \/ (b = b' /\ c < c'))))%Z.

Definition sf_num (x : spec_float) : Prop := x <> S754_nan.

(** ** Completions *)

(** An [Error] object: [name] and [message]. *)
Record JsError := {
  errorName : string;
  message : string
}.

(** [Error.prototype.toString], which [`${err}`] calls. *)
Definition errorToString (e : JsError) : string :=
  if String.eqb (errorName e) "" then message e
  else if String.eqb (message e) "" then errorName e
  else errorName e ++ ": " ++ message e.

(** How a call ends: normally with a value, or by throwing.  [Unmodelled]
    marks the inputs on which the browser's behaviour is outside this model
    (see [readDataId]). *)
Inductive completion (A : Type) : Type :=
| Normal (a : A)
| Throw (e : JsError)
| Unmodelled.

Arguments Normal {A} a.
Arguments Throw {A} e.
Arguments Unmodelled {A}.

Definition bind {A B} (c : completion A) (k : A -> completion B) : completion B :=
  match c with
  | Normal a => k a
  | Throw e => Throw e
  | Unmodelled => Unmodelled
  end.

Notation "'let!' x ':=' c 'in' k" := (bind c (fun x => k))
  (at level 10, x name, c at level 100, k at level 200).

(** How a call that works on the document ends: the document it leaves,
    and the error when it threw. *)
Inductive outcome (D : Type) : Type :=
| Done (doc : D)
| Thrown (e : JsError) (doc : D)
| OutsideModel.

Arguments Done {D} doc.
Arguments Thrown {D} e doc.
Arguments OutsideModel {D}.

Definition andThen {D} (o : outcome D) (k : D -> outcome D) : outcome D :=
  match o with
  | Done doc => k doc
  | Thrown e doc => Thrown e doc
  | OutsideModel => OutsideModel
  end.

Notation "'dom!' x ':=' c 'in' k" := (andThen c (fun x => k))
  (at level 10, x name, c at level 100, k at level 200).

(** [xs.forEach((x) => f(x))] over the document that [f] works on. *)
Fixpoint forEach {A D} (f : A -> D -> outcome D) (xs : list A) (doc : D)
  : outcome D :=
  match xs with
  | [] => Done doc
  | x :: rest => dom! doc1 := f x doc in forEach f rest doc1
  end.

(** ** Data model

    [DisplayValue] is the host framework's type and [config/types] is not
    part of the sources: the records list the fields the code reads.  An
    optional field ([prefix?: string]) is an [option]. *)

Record DisplayValue := {
  text : string;
  numeric : Num.number;
  prefix : option string;
  suffix : option string;
  color : option string;
  title : option string
}.

(** [MetricIndicator = DisplayValue & { metricName; valueName; ... }] *)
Record MetricIndicator := {
  displayValue :> DisplayValue;
  metricName : string;
  valueName : option string;
  isComposite : option bool;
  originalName : option string
}.

Record CompositeMetric := {
  name : string;
  members : list string;
  showLowestValue : bool
}.

Record NodeSizeOptions := {
  minWidth : Num.number;
  minHeight : Num.number
}.

(** [m.valueField.config.custom] *)
Record CustomConfig := {
  customValueName : string
}.

(** [DiagramSeriesValue] is [number | null]. *)
Definition DiagramSeriesValue := option Num.number.

Record DiagramSeriesModel := {
  label : string;
  custom : option CustomConfig;
  info : option (list DisplayValue);
  data : list (DiagramSeriesValue * DiagramSeriesValue);
  isVisible : bool
}.

(** The indicator objects are shared between the [indicators] array and the
    array that [reduceComposites] returns, and [reduceComposites] writes to
    them: the store holds the objects, an index is a reference to one. *)
Abbreviation store := (list MetricIndicator) (only parsing).
Abbreviation ref := nat (only parsing).

(** ** [reduceModels] *)

(** [m.info?.find((dv) => dv.title === valueName)] *)
Definition findByTitle (valueName : string) (info : option (list DisplayValue))
  : option DisplayValue :=
  match info with
  | Some dvs =>
      List.find (fun dv => match title dv with
                           | Some t => String.eqb t valueName
                           | None => false
                           end) dvs
  | None => None
  end.

(** A fresh object per model that has a custom config and a display value of
    the configured title. *)
Definition reduceModels (models : list DiagramSeriesModel) : store :=
  flat_map
    (fun m =>
       match custom m with
       | Some cfg =>
           match findByTitle (customValueName cfg) (info m) with
           | Some dv =>
               [ {| displayValue := dv; metricName := label m;
                    valueName := title dv; isComposite := None;
                    originalName := None |} ]
           | None => []
           end
       | None => []
       end)
    models.

(** ** [reduceComposites] *)

(** [indicators.filter((i) => i.metricName === m)]: the references of the
    indicators named [m], in array order, each with the object it denotes. *)
Fixpoint filterByName (m : string) (base : ref) (indicators : store)
  : list (ref * MetricIndicator) :=
  match indicators with
  | [] => []
  | i :: rest =>
      if String.eqb (metricName i) m
      then (base, i) :: filterByName m (S base) rest
      else filterByName m (S base) rest
  end.

(** [c.members.flatMap((m) => indicators.filter(...))] *)
Definition candidatesOf (indicators : store) (c : CompositeMetric)
  : list (ref * MetricIndicator) :=
  flat_map (fun m => filterByName m 0 indicators) (members c).

(** [Number.isNaN(x.numeric) ? 0 : x.numeric] *)
Definition valueOrZero (i : MetricIndicator) : Num.number :=
  if Num.isNaN (numeric i) then 0%float else numeric i.

(** The callback of [candidates.reduce]. *)
Definition pickComposite (showLowest : bool) (prev current : ref * MetricIndicator)
  : ref * MetricIndicator :=
  let previousValue := valueOrZero (snd prev) in
  let currentValue := valueOrZero (snd current) in
  let currentIsLower := Num.lt currentValue previousValue in
  if showLowest
  then (if currentIsLower then current else prev)
  else (if currentIsLower then prev else current).

(** [Array.prototype.reduce] without an initial value, on a non-empty array:
    the first element seeds the accumulator. *)
Definition reduce1 {A} (f : A -> A -> A) (first : A) (rest : list A) : A :=
  fold_left f rest first.

(** The three assignments to the winning object. *)
Definition tagComposite (i : MetricIndicator) (compositeName : string)
  : MetricIndicator :=
  {| displayValue := displayValue i;
     metricName := compositeName;
     valueName := valueName i;
     isComposite := Some true;
     originalName := Some (metricName i) |}.

(** The winner of one composite, before it is relabelled: [None] when no
    indicator is a member. *)
Definition compositeWinner (indicators : store) (c : CompositeMetric)
  : option (ref * MetricIndicator) :=
  match candidatesOf indicators c with
  | first :: rest => Some (reduce1 (pickComposite (showLowestValue c)) first rest)
  | [] => None
  end.

(** The callback of [composites.map]: the store after the call and the
    reference returned ([None] for [null]). *)
Definition reduceComposite (indicators : store) (c : CompositeMetric)
  : store * option ref :=
  match compositeWinner indicators c with
  | Some compositeIndicator =>
      (<[fst compositeIndicator := tagComposite (snd compositeIndicator) (name c)]> indicators,
       Some (fst compositeIndicator))
  | None => (indicators, None)
  end.

(** [composites.map(...).filter((c) => c != null)]: the callbacks run in
    order on the same objects, so each sees the writes of the ones before. *)
Fixpoint reduceComposites (indicators : store) (composites : list CompositeMetric)
  : store * list ref :=
  match composites with
  | [] => (indicators, [])
  | c :: cs =>
      let '(indicators1, r) := reduceComposite indicators c in
      let '(indicators2, rs) := reduceComposites indicators1 cs in
      (indicators2, match r with Some i => i :: rs | None => rs end)
  end.

(** ** The DOM

    A document is a tree; [TextNode] and [Element] are the two kinds of node
    the code meets.  Attributes are kept in the order they were set; [class]
    and [style] are attributes like the others. *)

#[warnings="-register-all"]
Inductive node : Type :=
| TextNode (data : string)
| Element (tag : string) (attrs : list (string * string)) (children : list node).

(** A reference to a node: the child indices from the root of the document. *)
Abbreviation path := (list nat) (only parsing).

(** A d3 selection: its non-null nodes, in order. *)
Abbreviation selection := (list (list nat)) (only parsing).

Definition isElement (n : node) : bool :=
  match n with Element _ _ _ => true | TextNode _ => false end.

Definition childNodes (n : node) : list node :=
  match n with Element _ _ ch => ch | TextNode _ => [] end.

Definition tagName (n : node) : string :=
  match n with Element t _ _ => t | TextNode _ => "" end.

Fixpoint getNode (doc : node) (p : path) : option node :=
  match p with
  | [] => Some doc
  | i :: p' =>
      match childNodes doc !! i with
      | Some c => getNode c p'
      | None => None
      end
  end.

(** Replace the node at [p] by [f] of it; nothing changes when [p] leads
    nowhere. *)
Fixpoint updateNode (p : path) (f : node -> node) (doc : node) : node :=
  match p with
  | [] => f doc
  | i :: p' =>
      match doc with
      | Element t a ch => Element t a (alter (updateNode p' f) i ch)
      | TextNode _ => doc
      end
  end.

(** [node.parentNode], for a node other than the root. *)
Definition parentPath (p : path) : path := removelast p.

(** [q] lies strictly below [p]. *)
Fixpoint strictlyBelow (p q : path) : bool :=
  match p, q with
  | [], [] => false
  | [], _ :: _ => true
  | _ :: _, [] => false
  | i :: p', j :: q' => Nat.eqb i j && strictlyBelow p' q'
  end.

(** *** Attributes *)

Fixpoint lookupAttr (a : string) (attrs : list (string * string)) : option string :=
  match attrs with
  | [] => None
  | (k, v) :: rest => if String.eqb k a then Some v else lookupAttr a rest
  end.

Fixpoint storeAttr (a v : string) (attrs : list (string * string))
  : list (string * string) :=
  match attrs with
  | [] => [(a, v)]
  | (k, w) :: rest =>
      if String.eqb k a then (k, v) :: rest else (k, w) :: storeAttr a v rest
  end.

(** [element.getAttribute(a)]: [None] for [null]. *)
Definition getAttribute (a : string) (n : node) : option string :=
  match n with
  | Element _ attrs _ => lookupAttr a attrs
  | TextNode _ => None
  end.

(** [getAttribute] of the element at [p]. *)
Definition attrAt (doc : node) (p : path) (a : string) : option string :=
  match getNode doc p with
  | Some n => getAttribute a n
  | None => None
  end.

Definition withAttribute (a v : string) (n : node) : node :=
  match n with
  | Element t attrs ch => Element t (storeAttr a v attrs) ch
  | TextNode _ => n
  end.

(** [element.setAttribute(a, v)] on the element at [p]. *)
Definition setAttribute (p : path) (a v : string) (doc : node) : node :=
  updateNode p (withAttribute a v) doc.

Definition withChildren (ch : list node) (n : node) : node :=
  match n with
  | Element t attrs _ => Element t attrs ch
  | TextNode _ => n
  end.

Definition setChildren (p : path) (ch : list node) (doc : node) : node :=
  updateNode p (withChildren ch) doc.

(** [node.textContent] *)
Fixpoint textContent (n : node) : string :=
  match n with
  | TextNode s => s
  | Element _ _ ch => String.concat "" (map textContent ch)
  end.

(** [textContent] of the node at [p]; the empty string stands in when [p]
    leads nowhere, which the code never asks. *)
Definition textAt (doc : node) (p : path) : string :=
  match getNode doc p with Some n => textContent n | None => "" end.

(** *** Class tokens *)

(** ASCII white space, which separates the tokens of a [class] attribute. *)
Definition isAsciiWhitespace (c : ascii) : bool :=
  let n := nat_of_ascii c in
  (Nat.eqb n 9 || Nat.eqb n 10 || Nat.eqb n 12 || Nat.eqb n 13 || Nat.eqb n 32)%bool.

(** The tokens of [s]; [cur] is the token being read. *)
Fixpoint splitTokens (s : string) (cur : string) : list string :=
  match s with
  | EmptyString => if String.eqb cur "" then [] else [cur]
  | String c s' =>
      if isAsciiWhitespace c
      then (if String.eqb cur "" then splitTokens s' ""
            else cur :: splitTokens s' "")
      else splitTokens s' (cur ++ String c "")
  end.

Fixpoint dedupe (l : list string) (seen : list string) : list string :=
  match l with
  | [] => []
  | x :: rest =>
      if existsb (String.eqb x) seen then dedupe rest seen
      else x :: dedupe rest (x :: seen)
  end.

(** [element.classList]: the ordered set of the tokens of [class]. *)
Definition classList (n : node) : list string :=
  dedupe (splitTokens (default "" (getAttribute "class" n)) "") [].

(** [element.classList.add(c)]: [class] becomes the serialised token set. *)
Definition classListAdd (c : string) (n : node) : node :=
  let tokens := classList n in
  let tokens' := if existsb (String.eqb c) tokens then tokens else tokens ++ [c] in
  withAttribute "class" (String.concat " " tokens') n.

(** *** Selectors

    The selectors of the code are written out as syntax trees: a selector is
    a comma-separated list of compound selectors. *)

Inductive simpleSelector : Type :=
| SelType (t : string)
| SelClass (c : string)
| SelAttrEquals (a v : string).

Abbreviation compoundSelector := (list simpleSelector) (only parsing).
Abbreviation selector := (list (list simpleSelector)) (only parsing).

(** Elements are named by their local name as the browser holds it: lower
    case for HTML elements, as written for SVG elements ([foreignObject]). *)
Definition matchesSimple (n : node) (s : simpleSelector) : bool :=
  match n with
  | TextNode _ => false
  | Element t _ _ =>
      match s with
      | SelType t' => String.eqb t t'
      | SelClass c => existsb (String.eqb c) (classList n)
      | SelAttrEquals a v =>
          match getAttribute a n with
          | Some w => String.eqb w v
          | None => false
          end
      end
  end.

(** [element.matches(selector)] *)
Definition matchesSelector (sel : selector) (n : node) : bool :=
  isElement n && existsb (forallb (matchesSimple n)) sel.

(** ['svg'], ['span'], ['div'], ['text'], ['g'], ['foreignObject'] *)
Definition typeSelector (t : string) : selector := [[SelType t]].
(** ['rect,circle,polygon,path'] *)
Definition shapesSelector : selector :=
  [[SelType "rect"]; [SelType "circle"]; [SelType "polygon"]; [SelType "path"]].
(** ['g.label'] *)
Definition labelGroupSelector : selector := [[SelType "g"; SelClass "label"]].
(** ['.node'] *)
Definition nodeClassSelector : selector := [[SelClass "node"]].
(** ['.node.flowchart-label'] *)
Definition flowchartLabelSelector : selector :=
  [[SelClass "node"; SelClass "flowchart-label"]].

(** The proper descendants of [n] in document order, each with its path
    from [n]. *)
Fixpoint descendants (n : node) : list (list nat * node) :=
  match n with
  | TextNode _ => []
  | Element _ _ ch =>
      (fix go (i : nat) (cs : list node) : list (list nat * node) :=
         match cs with
         | [] => []
         | c :: cs' =>
             ((([i], c) :: map (fun d => (i :: fst d, snd d)) (descendants c))
              ++ go (S i) cs')
         end) 0 ch
  end.

(** [element.querySelectorAll(sel)] on the element at [p]: the matching
    descendants, in document order, by their paths from the root. *)
Definition querySelectorAll (doc : node) (p : path) (sel : selector) : selection :=
  match getNode doc p with
  | Some n =>
      map (fun d => p ++ fst d)
          (filter (fun d => matchesSelector sel (snd d) = true) (descendants n))
  | None => []
  end.

(** [element.querySelector(sel)]: [None] for [null]. *)
Definition querySelector (doc : node) (p : path) (sel : selector) : option (list nat) :=
  head (querySelectorAll doc p sel).

Definition matchesAt (doc : node) (sel : selector) (p : path) : bool :=
  match getNode doc p with
  | Some n => matchesSelector sel n
  | None => false
  end.

(** The node at [p] and its ancestors, innermost first. *)
Definition selfAndAncestors (p : path) : list (list nat) :=
  map (fun k => take k p) (rev (seq 0 (S (length p)))).

(** [element.closest(sel)]: [None] for [null]. *)
Definition closest (doc : node) (sel : selector) (p : path) : option (list nat) :=
  List.find (matchesAt doc sel) (selfAndAncestors p).

(** [element.firstElementChild] *)
Definition firstElementChild (doc : node) (p : path) : option (list nat) :=
  match getNode doc p with
  | Some n =>
      (fix go (i : nat) (cs : list node) : option (list nat) :=
         match cs with
         | [] => None
         | c :: cs' => if isElement c then Some (p ++ [i]) else go (S i) cs'
         end) 0 (childNodes n)
  | None => None
  end.

(** Append [child] as the last child of the element at [p]; the path of the
    new node. *)
Definition appendChild (p : path) (child : node) (doc : node) : node * list nat :=
  let n := length (childNodes (default (TextNode "") (getNode doc p))) in
  (updateNode p (fun e => withChildren (childNodes e ++ [child]) e) doc, p ++ [n]).

(** ** The platform

    What the browser, d3's environment and the host framework compute and
    this development does not define.  [diagramStyleFormatter] is a module of
    the repository that is not part of the sources at hand. *)

Record BBox := {
  bboxX : Num.number;
  bboxY : Num.number;
  bboxWidth : Num.number;
  bboxHeight : Num.number
}.

Class Platform := {
  (** [Number.prototype.toString], also behind template literals and
      [setAttribute] *)
  numberToString : Num.number -> string;
  (** the HTML fragment parser behind [innerHTML]: context element's name,
      markup *)
  parseFragment : string -> string -> list node;
  (** [element.style.setProperty(name, value)] as it shows in the [style]
      attribute: the attribute's text before, name, value *)
  cssSetProperty : string -> string -> string -> string;
  (** [element.getBBox()] *)
  getBBox : node -> list nat -> BBox;
  (** [element.innerText] of the element at a path of a document: the text
      as it is rendered, which depends on layout and style (a [br] is a line
      break, white space collapses, hidden text is left out) *)
  innerText : node -> list nat -> string;
  (** [diagramStyleFormatter(diagramStyle, diagramId)] *)
  diagramStyleFormatter : string -> string -> string;
  (** [JSON.stringify] of an object whose values are strings, given as its
      properties in order *)
  jsonStringify : list (string * string) -> string;
  (** the message of the [SyntaxError] for a selector text *)
  selectorErrorMessage : string -> string;
  (** the message of the [TypeError] for reading a property of [undefined]
      or [null] *)
  nullishReadMessage : string -> string;
  (** the message of the [TypeError] for setting a property of [null] *)
  nullishWriteMessage : string -> string
}.

(** The double quote character, as a string. *)
Definition dquote : string := String (ascii_of_nat 34) EmptyString.

(** [formattedValueToString] of the host framework:
    [`${prefix ?? ''}${text}${suffix ?? ''}`] *)
Definition formattedValueToString (v : DisplayValue) : string :=
  default "" (prefix v) ++ text v ++ default "" (suffix v).

(** Truthiness of an optional string: set and not empty. *)
Definition truthyString (s : option string) : option string :=
  match s with
  | Some v => if String.eqb v "" then None else Some v
  | None => None
  end.

(** *** The text [`[data-id="${id}"]`] as the CSS parser reads it

    The characters of [id] stand inside a double-quoted CSS string.
    - When [id] has no quote, backslash, line break or NUL, the text is the
      attribute selector it looks like.
    - A line break inside the string makes a bad-string token: the selector
      is invalid.
    - A quote of [id] ends the string early.  When what follows in the text
      starts a string, a number, or an identifier that cannot be one of the
      modifiers [i] and [s], no attribute selector can be read and the
      selector is invalid.
    - The other texts (escapes, NUL, or further selector text after the
      early quote) are left outside the model. *)

Inductive selectorReading : Type :=
| ReadsAsAttribute
| InvalidSelector
| NotModelled.

Definition isDigitChar (c : ascii) : bool :=
  let n := nat_of_ascii c in (Nat.leb 48 n && Nat.leb n 57)%bool.

Definition isLetterChar (c : ascii) : bool :=
  let n := nat_of_ascii c in
  ((Nat.leb 65 n && Nat.leb n 90) || (Nat.leb 97 n && Nat.leb n 122))%bool.

(** [i], [I], [s], [S] *)
Definition isModifierChar (c : ascii) : bool :=
  let n := nat_of_ascii c in
  (Nat.eqb n 105 || Nat.eqb n 73 || Nat.eqb n 115 || Nat.eqb n 83)%bool.

Definition isLineBreak (c : ascii) : bool :=
  let n := nat_of_ascii c in (Nat.eqb n 10 || Nat.eqb n 12 || Nat.eqb n 13)%bool.

Fixpoint readDataId (id : string) : selectorReading :=
  match id with
  | EmptyString => ReadsAsAttribute
  | String c rest =>
      if Nat.eqb (nat_of_ascii c) 34 then
        (* the quote closes the value; the text goes on with [rest], then
           with the quote and the bracket of the template *)
        match rest with
        | EmptyString => InvalidSelector
        | String d _ =>
            if (Nat.eqb (nat_of_ascii d) 34 || isDigitChar d
                || (isLetterChar d && negb (isModifierChar d)))%bool
            then InvalidSelector
            else NotModelled
        end
      else if isLineBreak c then InvalidSelector
      else if (Nat.eqb (nat_of_ascii c) 92 || Nat.eqb (nat_of_ascii c) 0)%bool
      then NotModelled
      else readDataId rest
  end.

Definition dataIdSelectorText (id : string) : string :=
  "[data-id=" ++ dquote ++ id ++ dquote ++ "]".

Record LegendOptions := {
  hideEmpty : bool;
  hideZero : bool
}.

(** One palette of theme-variable overrides: variable name and value, per
    diagram grammar. *)
Record ThemeVariables := {
  common : list (string * string);
  classDiagram : list (string * string);
  flowChart : list (string * string);
  sequenceDiagram : list (string * string);
  stateDiagram : list (string * string);
  userJourneyDiagram : list (string * string)
}.

Record DiagramOptions := {
  content : string;
  contentUrl : option string;
  useBackground : bool;
  nodeSize : NodeSizeOptions;
  maxWidth : bool;
  composites : option (list CompositeMetric);
  style : string;
  legend : LegendOptions;
  mermaidThemeVariablesDark : ThemeVariables;
  mermaidThemeVariablesLight : ThemeVariables
}.

(** [s] with the prefix [p] removed, when [s] starts with [p]. *)
Fixpoint stripPrefix (p s : string) : option string :=
  match p, s with
  | EmptyString, _ => Some s
  | String a p', String b s' => if Ascii.eqb a b then stripPrefix p' s' else None
  | String _ _, EmptyString => None
  end.

(** [sub] occurs in [s]. *)
Fixpoint occursIn (sub s : string) : bool :=
  match stripPrefix sub s with
  | Some _ => true
  | None =>
      match s with
      | EmptyString => false
      | String _ s' => occursIn sub s'
      end
  end.

Section Resolver.

Context {platform : Platform}.

(** ** d3 on one node *)

(** [selection.style(name, value)] *)
Definition d3_style (name value : string) (p : path) (doc : node) : node :=
  updateNode p
    (fun n => withAttribute "style"
                (cssSetProperty (default "" (getAttribute "style" n)) name value) n)
    doc.

(** [selection.classed(name, true)] *)
Definition d3_classed (name : string) (p : path) (doc : node) : node :=
  updateNode p (classListAdd name) doc.

(** [selection.html(markup)], [element.innerHTML = markup] *)
Definition setInnerHTML (markup : string) (p : path) (doc : node) : node :=
  updateNode p (fun n => withChildren (parseFragment (tagName n) markup) n) doc.

(** [selection.text(value)], [node.textContent = value] *)
Definition setTextContent (value : string) (p : path) (doc : node) : node :=
  setChildren p (if String.eqb value "" then [] else [TextNode value]) doc.

(** [selection.append(name)], [selection.insert(name)] without a [before]:
    a new empty element, last among the children. *)
Definition d3_append (name : string) (p : path) (doc : node) : node * list nat :=
  appendChild p (Element name [] []) doc.

(** The datum d3 holds for a node ([node.__data__]).  [selection.each]
    calls its callback as [callback.call(node, node.__data__, i, group)]: the
    first argument is the datum, the node itself is [this].  The nodes of a
    document that was parsed from markup (the rendered diagram is assigned
    to [innerHTML]), and the nodes appended below them, have none. *)
Definition datum (doc : node) (p : path) : option (list nat) := None.

Definition typeError (what : string) : JsError :=
  {| errorName := "TypeError"; message := nullishReadMessage what |}.

(** ** Locating *)

(** [select(container.querySelector(`[data-id="${id}"]`))] *)
Definition selectElementById (doc : node) (container : path) (id : string)
  : completion selection :=
  match readDataId id with
  | ReadsAsAttribute =>
      Normal (option_list
                (querySelector doc container [[SelAttrEquals "data-id" id]]))
  | InvalidSelector =>
      Throw {| errorName := "SyntaxError";
               message := selectorErrorMessage (dataIdSelectorText id) |}
  | NotModelled => Unmodelled
  end.

(** [select(container).selectAll('span').filter(text() === id)] *)
Definition selectElementByEdgeLabel (doc : node) (container : path) (id : string)
  : selection :=
  filter (fun p => String.eqb (textAt doc p) id = true)
         (querySelectorAll doc container (typeSelector "span")).

Definition selectDivElementByAlias (doc : node) (container : path) (alias : string)
  : selection :=
  let targetElement :=
    filter (fun p => String.eqb (textAt doc p) alias = true)
           (querySelectorAll doc container (typeSelector "div")) in
  match head targetElement with
  | Some firstNode =>
      match closest doc nodeClassSelector firstNode with
      | Some parentShape => [parentShape]
      | None => []
      end
  | None => []
  end.

Definition selectTextElementByAlias (doc : node) (container : path) (alias : string)
  : selection :=
  filter (fun p => String.eqb (textAt doc p) alias = true)
         (querySelectorAll doc container (typeSelector "text")).

(** [s.includes(sub)] *)
Definition includes (s sub : string) : bool := occursIn sub s.

Definition selectTextElementContainingAlias (doc : node) (container : path)
  (alias : string) : selection :=
  filter (fun p => includes (textAt doc p) alias = true)
         (querySelectorAll doc container (typeSelector "text")).

Definition fetchParentsUntilShapeElementFound (doc : node) (element : path)
  (sel : selector) : option (list nat) :=
  List.find (matchesAt doc sel) (selfAndAncestors element).

(** ** Painting *)

(** [Number.parseInt(attr || '1', 10)] *)
Definition currentSize (attr : option string) : Num.number :=
  Num.parseInt (default "1" (truthyString attr)).

(** [Math.max(Number.parseInt(attr || '1', 10), minimum)] *)
Definition grownSize (attr : option string) (minimum : Num.number) : Num.number :=
  Num.Math_max (currentSize attr) minimum.

Definition resizeGrouping (element : selection) (nodeSize : NodeSizeOptions)
  (doc : node) : outcome node :=
  match head element with
  | None => Thrown (typeError "closest") doc
  | Some elementNode =>
      match closest doc (typeSelector "g") elementNode,
            closest doc labelGroupSelector elementNode,
            closest doc (typeSelector "foreignObject") elementNode with
      | Some closestGroup, Some closestLabelGroup, Some closestForeignObject =>
          let doc1 := setAttribute closestGroup "transform" "" doc in
          let _minWidth :=
            grownSize (attrAt doc1 closestForeignObject "width") (minWidth nodeSize) in
          let _minHeight :=
            grownSize (attrAt doc1 closestForeignObject "height") (minHeight nodeSize) in
          let doc2 := setAttribute closestForeignObject "height"
                        (numberToString _minHeight) doc1 in
          let doc3 := setAttribute closestForeignObject "width"
                        (numberToString _minWidth) doc2 in
          Done
            (setAttribute closestLabelGroup "transform"
               ("translate(-" ++ numberToString (_minWidth / 2)%float
                ++ ",-" ++ numberToString (_minHeight / 2)%float ++ ")")
               doc3)
      | _, _, _ => Done doc
      end
  end.

(** The markup [styleD3Shapes] assigns to the label's [innerHTML]. *)
Definition shapeLabelContent (labelText : string) (indicator : MetricIndicator)
  : string :=
  let content := (labelText ++ "<br/> " ++ formattedValueToString indicator)%string in
  match isComposite indicator with
  | Some true =>
      (content ++ "<br/>" ++ default "undefined" (originalName indicator))%string
  | _ => content
  end.

Definition shapeLabelMarkup (labelText : string) (indicator : MetricIndicator)
  : string :=
  "<div style=" ++ dquote ++ "margin:auto" ++ dquote ++ ">"
  ++ shapeLabelContent labelText indicator ++ "</div>".

(** [divElement.innerText] is read after the resize and before the margin
    is set: from the document as it is then. *)
Definition styleD3Shapes (targetElement : selection) (indicator : MetricIndicator)
  (useBackground : bool) (nodeSize : NodeSizeOptions) (doc : node)
  : outcome node :=
  let shapes := flat_map (fun t => querySelectorAll doc t shapesSelector) targetElement in
  let div := omap (fun t => querySelector doc t (typeSelector "div")) targetElement in
  let doc1 := fold_left (fun d p => d3_classed "diagram-value" p d) div doc in
  dom! doc2 :=
    match head div with
    | Some divElement =>
        dom! doc11 := resizeGrouping div nodeSize doc1 in
        let labelText := innerText doc11 divElement in
        let doc12 :=
          match isComposite indicator with
          | Some true =>
              d3_style "margin-top"
                ("-" ++ numberToString (minHeight nodeSize / 4)%float ++ "px")
                divElement doc11
          | _ => doc11
          end in
        Done (setInnerHTML (shapeLabelMarkup labelText indicator) divElement doc12)
    | None => Done doc1
    end in
  match truthyString (color indicator) with
  | Some c =>
      if useBackground
      then
        (* the shapes that stood inside the label left the document with its
           old content: styling them changes nothing in the document *)
        let attached :=
          filter (fun s => existsb (fun d => strictlyBelow d s) (option_list (head div)) = false)
                 shapes in
        Done (fold_left (fun d p => d3_style "fill" c p d) attached doc2)
      else Done (fold_left (fun d p => d3_style "color" c p d) div doc2)
  | None => Done doc2
  end.

Definition styleFlowChartEdgeLabel (targetElement : selection)
  (indicator : MetricIndicator) (useBackground : bool) (nodeSize : NodeSizeOptions)
  (doc : node) : outcome node :=
  match head targetElement with
  | None => Thrown (typeError "parentNode") doc
  | Some first =>
      let edgeParent := parentPath first in
      let '(doc1, _) := d3_append "br" edgeParent doc in
      let '(doc2, v) := d3_append "span" edgeParent doc1 in
      let doc3 := d3_classed "diagram-value" v doc2 in
      let doc4 := setInnerHTML (formattedValueToString indicator) v doc3 in
      dom! doc5 := resizeGrouping [edgeParent] nodeSize doc4 in
      match truthyString (color indicator) with
      | Some c =>
          if useBackground
          then
            let doc6 := d3_style "background-color" c v doc5 in
            match fetchParentsUntilShapeElementFound doc6 first flowchartLabelSelector with
            | Some parentShapeElement =>
                match firstElementChild doc6 parentShapeElement with
                | Some child => Done (setAttribute child "style" ("fill: " ++ c) doc6)
                | None => Done doc6
                end
            | None => Done doc6
            end
          else Done (d3_style "color" c v doc5)
      | None => Done doc5
      end
  end.

(** The callback of [targetElement.each] in [styleTextEdgeLabel], an arrow
    function of one parameter [el], applied to what d3 passes as its first
    argument: [None] is [undefined], on which [el.getBBox()] throws. *)
Definition styleTextEdgeLabel_each (indicator : MetricIndicator)
  (useBackground : bool) (el : option (list nat)) (doc : node) : outcome node :=
  match el with
  | None => Thrown (typeError "getBBox") doc
  | Some el =>
      let bbox := getBBox doc el in
      let markerBoxX := bboxX bbox in
      let markerBoxY := (bboxY bbox + bboxHeight bbox + 10)%float in
      let markerBoxWidth := bboxWidth bbox in
      let markerBoxHeight := bboxHeight bbox in
      match truthyString (color indicator) with
      | Some c =>
          let parentNode := parentPath el in
          let '(doc1, rect) := d3_append "rect" parentNode doc in
          let doc2 := setAttribute rect "x" (numberToString markerBoxX) doc1 in
          let doc3 := setAttribute rect "y" (numberToString markerBoxY) doc2 in
          let doc4 := setAttribute rect "width" (numberToString markerBoxWidth) doc3 in
          let doc5 := setAttribute rect "height" (numberToString markerBoxHeight) doc4 in
          let '(doc6, textNode) := d3_append "text" parentNode doc5 in
          let doc7 := setTextContent (formattedValueToString indicator) textNode doc6 in
          let doc8 := setAttribute textNode "x"
                        (numberToString (markerBoxX + markerBoxWidth / 2)%float) doc7 in
          let doc9 := setAttribute textNode "y"
                        (numberToString (markerBoxY + markerBoxHeight - 1)%float) doc8 in
          let doc10 := setAttribute textNode "width" (numberToString markerBoxWidth) doc9 in
          let doc11 := setAttribute textNode "height" (numberToString markerBoxHeight) doc10 in
          let doc12 := d3_style "text-anchor" "middle" textNode doc11 in
          if useBackground
          then Done (d3_style "fill" c rect doc12)
          else Done (d3_style "color" c textNode doc12)
      | None => Done doc
      end
  end.

Definition styleTextEdgeLabel (targetElement : selection) (indicator : MetricIndicator)
  (useBackground : bool) (doc : node) : outcome node :=
  forEach (fun p d => styleTextEdgeLabel_each indicator useBackground (datum d p) d)
          targetElement doc.

(** Append one [tspan] to each node of the selection; the selection of the
    new nodes. *)
Fixpoint appendToEach (name : string) (targets : selection) (doc : node)
  : node * list (list nat) :=
  match targets with
  | [] => (doc, [])
  | t :: rest =>
      let '(doc1, new) := d3_append name t doc in
      let '(doc2, news) := appendToEach name rest doc1 in
      (doc2, new :: news)
  end.

Definition styleSequenceDiagramEdgeLabel (targetElement : selection)
  (indicator : MetricIndicator) (useBackground : bool) (nodeSize : NodeSizeOptions)
  (doc : node) : outcome node :=
  let '(doc1, spanElement) := appendToEach "tspan" targetElement doc in
  let doc2 := fold_left (fun d p => d3_classed "diagram-value" p d) spanElement doc1 in
  let doc3 := fold_left (fun d p => setInnerHTML (formattedValueToString indicator) p d)
                spanElement doc2 in
  match truthyString (color indicator) with
  | Some c =>
      if useBackground
      then Done (fold_left (fun d p => d3_style "background-color" c p d) spanElement doc3)
      else Done (fold_left (fun d p => d3_style "color" c p d) spanElement doc3)
  | None => Done doc3
  end.

Definition injectCustomStyle (container : path) (diagramStyle diagramId : string)
  (doc : node) : node :=
  let '(doc1, diagramStyleElement) := d3_append "style" container doc in
  setTextContent (diagramStyleFormatter diagramStyle diagramId) diagramStyleElement doc1.

(** ** [processDiagramSeriesModel] *)

Definition isEmpty (s : selection) : bool :=
  match s with [] => true | _ :: _ => false end.

Definition processDiagramSeriesModel (container : path) (indicator : MetricIndicator)
  (options : DiagramOptions) (doc : node) : outcome node :=
  let key := metricName indicator in
  match selectElementById doc container key with
  | Throw e => Thrown e doc
  | Unmodelled => OutsideModel
  | Normal targetElement =>
  if negb (isEmpty targetElement) then
    styleD3Shapes targetElement indicator (useBackground options) (nodeSize options) doc
  else
  let targetElement := selectElementByEdgeLabel doc container key in
  if negb (isEmpty targetElement) then
    styleFlowChartEdgeLabel targetElement indicator (useBackground options)
      (nodeSize options) doc
  else
  let targetElement := selectDivElementByAlias doc container key in
  if negb (isEmpty targetElement) then
    styleD3Shapes targetElement indicator (useBackground options) (nodeSize options) doc
  else
  let targetElement := selectTextElementByAlias doc container key in
  if negb (isEmpty targetElement) then
    styleTextEdgeLabel targetElement indicator (useBackground options) doc
  else
  let targetElement := selectTextElementContainingAlias doc container key in
  if negb (isEmpty targetElement) then
    styleSequenceDiagramEdgeLabel targetElement indicator (useBackground options)
      (nodeSize options) doc
  else
  Done doc
  end.

(** ** [updateDiagramStyle] *)

Definition updateDiagramStyle (el : path) (models : list DiagramSeriesModel)
  (options : DiagramOptions) (diagramId : string) (doc : node) : outcome node :=
  let indicators := reduceModels models in
  match querySelector doc el (typeSelector "svg") with
  | None => Done doc
  | Some svg =>
      let doc1 :=
        if maxWidth options
        then d3_style "max-height" "100%" svg (d3_style "max-width" "100%" svg doc)
        else doc in
      let doc2 :=
        if negb (maxWidth options)
        then setAttribute (parentPath svg) "style" "overflow-y: scroll" doc1
        else doc1 in
      dom! doc3 :=
        forEach (fun indicator d => processDiagramSeriesModel svg indicator options d)
                indicators doc2 in
      let '(indicators', composed) :=
        reduceComposites indicators (default [] (composites options)) in
      dom! doc4 :=
        forEach (fun indicator d => processDiagramSeriesModel svg indicator options d)
                (omap (fun r => indicators' !! r) composed) doc3 in
      Done (injectCustomStyle el (style options) diagramId doc4)
  end.

End Resolver.

(** ** The panel controller *)

(** *** [contentProcessor] *)

(** The pattern matches at the start of [s]: the opening marker, then any
    characters, as few as possible, then the closing marker. *)
Definition initDirectiveAt (s : string) : bool :=
  match stripPrefix "%%{" s with
  | Some rest => occursIn "}%%" rest
  | None => false
  end.

(** [content.match(/%%\{[\s\S]*?\}%%/)] finds a match: at some position. *)
Fixpoint hasInitDirective (s : string) : bool :=
  initDirectiveAt s
  || match s with
     | EmptyString => false
     | String _ s' => hasInitDirective s'
     end.

(** [{...target, ...source}]: a property that is already there keeps its
    place and takes the new value, a new one goes last. *)
Definition spread (target source : list (string * string)) : list (string * string) :=
  fold_left (fun acc kv => storeAttr (fst kv) (snd kv) acc) source target.

Definition mergedOverrides (v : ThemeVariables) : list (string * string) :=
  spread (spread (spread (spread (spread (spread [] (common v)) (classDiagram v))
                                 (flowChart v)) (sequenceDiagram v))
                 (stateDiagram v)) (userJourneyDiagram v).

Definition newline : string := String (ascii_of_nat 10) EmptyString.

Section Controller.

Context {platform : Platform}.

Definition contentProcessor (isDark : bool) (options : DiagramOptions)
  (content : string) : string :=
  let baseTheme := if isDark then "dark" else "base" in
  if hasInitDirective content then content
  else
    let overrides :=
      if isDark then mergedOverrides (mermaidThemeVariablesDark options)
      else mergedOverrides (mermaidThemeVariablesLight options) in
    let customTheme :=
      ("%%{init: {'theme': '" ++ baseTheme ++ "', 'themeVariables': "
       ++ jsonStringify overrides ++ "}}%%" ++ newline)%string in
    (customTheme ++ content)%string.

(** *** Loading the definition *)

Record Response := {
  status : Z;
  statusText : string;
  responseText : string
}.

(** [response.ok]: the status is in the range 200 to 299. *)
Definition ok (r : Response) : bool := ((200 <=? status r) && (status r <=? 299))%Z.

(** What the renderer returns: the markup, and the function that binds the
    diagram's interactions to a container, when there is one. *)
Record RenderResult := {
  svg : string;
  bindFunctions : option (list nat -> node -> outcome node)
}.

(** The services behind the two awaited calls.  [fetch] settles with a
    response or rejects.  [render] is asked for the outcome of the n-th call
    of a pass (counted from 0) with a diagram id and a definition text. *)
Record Services := {
  fetch : string -> completion Response;
  render : nat -> string -> string -> completion RenderResult
}.

Record DiagramPanelControllerProps := {
  isDark : bool;
  panelId : Num.number;
  options : DiagramOptions;
  seriesData : list DiagramSeriesModel;
  replaceVariables : string -> string
}.

Definition getRemoteDiagramDefinition (props : DiagramPanelControllerProps)
  (services : Services) (url : string) : completion string :=
  let! response := fetch services (replaceVariables props url) in
  if negb (ok response)
  then Throw {| errorName := "Error";
                message := ("Failed to fetch diagram definition: "
                            ++ numberToString (Num.ofZ (status response))
                            ++ " " ++ statusText response)%string |}
  else Normal (responseText response).

Definition loadDiagramDefinition (props : DiagramPanelControllerProps)
  (services : Services) : completion string :=
  match truthyString (contentUrl (options props)) with
  | Some url => getRemoteDiagramDefinition props services url
  | None => Normal (content (options props))
  end.

(** *** [initializeMermaid] *)

(** One render attempt: the call of the renderer and the two statements
    that follow it. *)
Definition renderInto (services : Services) (call : nat) (diagramId definition : string)
  (current : path) (doc : node) : outcome node :=
  match render services call diagramId definition with
  | Normal result =>
      let doc1 := setInnerHTML (svg result) current doc in
      match bindFunctions result with
      | Some bind => bind current doc1
      | None => Done doc1
      end
  | Throw e => Thrown e doc
  | Unmodelled => OutsideModel
  end.

Definition errorMarkup (err : JsError) : string :=
  ("<div><p>Error rendering diagram. Check the diagram definition</p><p>"
   ++ errorToString err ++ "</p></div>")%string.

(** What a pass leaves: the document, the calls of the renderer in order
    (diagram id and definition text), and how the promise settled. *)
Record Pass := {
  document : node;
  renderCalls : list (string * string);
  promise : completion unit
}.

(** A pass over a page that stands still: [diagramRef] is the container,
    [None] while the ref is not set, and holds the same container each time
    the pass resumes after an [await]; the call of [mermaid.initialize]
    configures the renderer, returns, and leaves the document alone.  The
    pass over a page that changes meanwhile is [initializeMermaidIn] below,
    of which this one is the instance at [steady]. *)
Definition initializeMermaid (props : DiagramPanelControllerProps)
  (services : Services) (diagramRef : option (list nat)) (doc : node) : Pass :=
  match diagramRef with
  | None => {| document := doc; renderCalls := []; promise := Normal tt |}
  | Some current =>
      match loadDiagramDefinition props services with
      | Throw e => {| document := doc; renderCalls := []; promise := Throw e |}
      | Unmodelled => {| document := doc; renderCalls := []; promise := Unmodelled |}
      | Normal diagramDefinition =>
          (* try *)
          let diagramId := ("diagram-" ++ numberToString (panelId props))%string in
          let interpolated :=
            replaceVariables props
              (contentProcessor (isDark props) (options props) diagramDefinition) in
          let primary := renderInto services 0 diagramId interpolated current doc in
          let '(calls, rendered) :=
            match primary with
            | Thrown _ doc1 =>
                ([(diagramId, interpolated); (diagramId, diagramDefinition)],
                 renderInto services 1 diagramId diagramDefinition current doc1)
            | _ => ([(diagramId, interpolated)], primary)
            end in
          match andThen rendered
                  (updateDiagramStyle current (seriesData props) (options props) diagramId)
          with
          | Done doc2 =>
              {| document := doc2; renderCalls := calls; promise := Normal tt |}
          | Thrown err doc2 =>
              (* catch (err) *)
              {| document := setInnerHTML (errorMarkup err) current doc2;
                 renderCalls := calls; promise := Normal tt |}
          | OutsideModel =>
              {| document := doc; renderCalls := calls; promise := Unmodelled |}
          end
      end
  end.

(** *** The legend *)

(** [current[1] || 0] *)
Definition valueOr0 (v : DiagramSeriesValue) : Num.number :=
  match v with
  | Some x => if Num.truthy x then x else 0%float
  | None => 0%float
  end.

(** [current[1] !== null] *)
Definition notNull (v : DiagramSeriesValue) : bool :=
  match v with Some _ => true | None => false end.

Definition shouldHideLegendItem (rows : list (DiagramSeriesValue * DiagramSeriesValue))
  (hideEmpty hideZero : bool) : bool :=
  let isZeroOnlySeries :=
    Num.strictEq
      (fold_left (fun acc current => (acc + valueOr0 (snd current))%float) rows 0%float)
      0%float in
  let isNullOnlySeries :=
    negb (fold_left (fun acc current => acc && notNull (snd current)) rows true) in
  (hideEmpty && isNullOnlySeries) || (hideZero && isZeroOnlySeries).

Record VizLegendItem := {
  legendLabel : string;
  legendColor : string;
  disabled : bool;
  yAxis : Z;
  getDisplayValues : list DisplayValue
}.

Definition getLegendItems (props : DiagramPanelControllerProps) : list VizLegendItem :=
  fold_left
    (fun acc s =>
       if shouldHideLegendItem (data s) (hideEmpty (legend (options props)))
                               (hideZero (legend (options props)))
       then acc
       else acc ++ [ {| legendLabel := label s; legendColor := "";
                        disabled := negb (isVisible s); yAxis := 0;
                        getDisplayValues := default [] (info s) |} ])
    (seriesData props) [].

End Controller.

(** ** What the statements below are about *)

(** [w] is no greater (no smaller) than [x] in the comparison the composite
    reduction makes: on the values with NaN read as 0. *)
Definition beats (showLowest : bool) (w x : ref * MetricIndicator) : Prop :=
  if showLowest
  then Num.le (valueOrZero (snd w)) (valueOrZero (snd x)) = true
  else Num.le (valueOrZero (snd x)) (valueOrZero (snd w)) = true.

(** What a function on nodes reads or keeps. *)
Definition topOnly {X} (g : node -> X) : Prop :=
  forall t a ch ch', g (Element t a ch) = g (Element t a ch').

Definition keepsChildren (f : node -> node) : Prop :=
  forall n, childNodes (f n) = childNodes n.

(** The descendants below a list of children, the first of which has the
    index [i]: the inner loop of [descendants]. *)
Fixpoint descendantsFrom (i : nat) (cs : list node) : list (list nat * node) :=
  match cs with
  | [] => []
  | c :: cs' =>
      ((([i], c) :: map (fun d => (i :: fst d, snd d)) (descendants c))
       ++ descendantsFrom (S i) cs')
  end.

(** A document without its attributes: what stays when only attributes
    are edited. *)
Fixpoint skeleton (n : node) : node :=
  match n with
  | TextNode s => TextNode s
  | Element t _ ch => Element t [] (map skeleton ch)
  end.

(** The child nodes of the node at [p]. *)
Definition childrenAt (doc : node) (p : path) : option (list node) :=
  childNodes <$> getNode doc p.






(** The diagram id of a pass and the text its first render call receives. *)
Definition diagramIdOf `{Platform} (props : DiagramPanelControllerProps) : string :=
  ("diagram-" ++ numberToString (panelId props))%string.

Definition interpolatedOf `{Platform} (props : DiagramPanelControllerProps)
  (definition : string) : string :=
  replaceVariables props
    (contentProcessor (isDark props) (options props) definition).

(** The sum the legend computes over a series, and whether a series has a
    null value. *)
Definition seriesSum (rows : list (DiagramSeriesValue * DiagramSeriesValue))
  : Num.number :=
  fold_left (fun acc current => (acc + valueOr0 (snd current))%float) rows 0%float.

Definition isNull (v : DiagramSeriesValue) : bool := negb (notNull v).

(** ** A platform and inputs for the examples

    The examples need one platform to run on.  [demoNumberToString] prints
    integers and short binary fractions as JavaScript does; the other fields
    are simple stand-ins: the parser knows the markup of the examples and
    keeps any other markup as one node that records it. *)

Definition decimalOfZ (z : Z) : string := NilZero.string_of_int (Z.to_int z).

Fixpoint zeros (n : nat) : string :=
  match n with O => "" | S n' => String "0" (zeros n') end.

Fixpoint dropTrailingZeros (s : string) : string :=
  match s with
  | EmptyString => ""
  | String c s' =>
      match dropTrailingZeros s' with
      | EmptyString => if Ascii.eqb c "0" then "" else String c ""
      | rest => String c rest
      end
  end.

(** The decimal expansion of [m * 2^e]. *)
Definition decimalOfBinary (m e : Z) : string :=
  if (0 <=? e)%Z then decimalOfZ (m * 2 ^ e)
  else
    let k := (- e)%Z in
    let whole := (m / 2 ^ k)%Z in
    let part := decimalOfZ ((m mod 2 ^ k) * 5 ^ k) in
    let digits :=
      dropTrailingZeros
        (zeros (Z.to_nat k - String.length part) ++ part)%string in
    if String.eqb digits "" then decimalOfZ whole
    else (decimalOfZ whole ++ "." ++ digits)%string.

Definition demoNumberToString (x : Num.number) : string :=
  match Prim2SF x with
  | S754_nan => "NaN"
  | S754_infinity s => if s then "-Infinity" else "Infinity"
  | S754_zero _ => "0"
  | S754_finite s m e =>
      ((if s then "-" else "") ++ decimalOfBinary (Z.pos m) e)%string
  end.

(** The markup the renderer of the examples returns, and its tree: a
    flowchart node [cpu] with an HTML label, and an edge label [load]. *)
Definition demoSvgMarkup : string := "<svg><g class='node'>...</g></svg>".

Definition demoLabel (t : string) : node :=
  Element "g" [("class", "label")]
    [Element "foreignObject" [("width", "64.5"); ("height", "24")]
       [Element "div" [] [Element "span" [("class", "nodeLabel")] [TextNode t]]]].

Definition demoSvg : node :=
  Element "svg" [("id", "diagram-1")]
    [Element "g" [("class", "node default"); ("data-id", "cpu")]
       [Element "rect" [("class", "basic")] []; demoLabel "CPU"];
     Element "text" [("class", "messageText")] [TextNode "GET /load now"]].

Definition demoParseFragment (context markup : string) : list node :=
  if String.eqb markup demoSvgMarkup then [demoSvg]
  else if String.eqb markup "" then []
  else [Element "#fragment" [("markup", markup)] []].

(** The rendered text of the examples: a [br] is a line break, any other
    element shows the rendered text of its children. *)
Fixpoint renderedText (n : node) : string :=
  match n with
  | TextNode s => s
  | Element t _ ch =>
      if String.eqb t "br" then newline
      else String.concat "" (map renderedText ch)
  end.

Definition demoInnerText (doc : node) (p : path) : string :=
  match getNode doc p with Some n => renderedText n | None => "" end.

#[export] Instance demoPlatform : Platform := {|
  numberToString := demoNumberToString;
  parseFragment := demoParseFragment;
  cssSetProperty := fun current name value =>
    (current ++ name ++ ": " ++ value ++ ";")%string;
  getBBox := fun _ _ =>
    {| bboxX := 0%float; bboxY := 0%float; bboxWidth := 0%float;
       bboxHeight := 0%float |};
  innerText := demoInnerText;
  diagramStyleFormatter := fun diagramStyle diagramId =>
    ("#" ++ diagramId ++ " { " ++ diagramStyle ++ " }")%string;
  jsonStringify := fun o =>
    ("{" ++ String.concat ","
              (map (fun kv => dquote ++ fst kv ++ dquote ++ ":"
                              ++ dquote ++ snd kv ++ dquote) o) ++ "}")%string;
  selectorErrorMessage := fun sel => ("'" ++ sel ++ "' is not a valid selector.")%string;
  nullishReadMessage := fun what =>
    ("Cannot read properties of undefined (reading '" ++ what ++ "')")%string;
  nullishWriteMessage := fun what =>
    ("Cannot set properties of null (setting '" ++ what ++ "')")%string
|}.

(** The document of the examples: the panel's wrapper, with the diagram
    container as its first child. *)
Definition demoContainer : list nat := [0].

Definition demoDocument (containerChildren : list node) : node :=
  Element "div" [("class", "diagram-container")]
    [Element "div" [("class", "diagram diagram-1")] containerChildren].

Definition sampleIndicator (n : string) (v : Num.number) : MetricIndicator :=
  {| displayValue := {| text := n; numeric := v; prefix := None;
                        suffix := None; color := None; title := Some "last" |};
     metricName := n; valueName := Some "last"; isComposite := None;
     originalName := None |}.

Definition sample528 : store :=
  [sampleIndicator "a" 5%float; sampleIndicator "b" 2%float;
   sampleIndicator "c" 8%float].

Definition sampleComposite (lowest : bool) : CompositeMetric :=
  {| name := "group"; members := ["a"; "b"; "c"]; showLowestValue := lowest |}.

Definition twoNaN : store :=
  [sampleIndicator "a" PrimFloat.nan; sampleIndicator "b" PrimFloat.nan].

Definition nanComposite (lowest : bool) : CompositeMetric :=
  {| name := "group"; members := ["a"; "b"]; showLowestValue := lowest |}.

Definition noThemeVariables : ThemeVariables :=
  {| common := []; classDiagram := []; flowChart := []; sequenceDiagram := [];
     stateDiagram := []; userJourneyDiagram := [] |}.

Definition sampleOptions (definition : string) (url : option string) : DiagramOptions :=
  {| content := definition; contentUrl := url; useBackground := true;
     nodeSize := {| minWidth := 30%float; minHeight := 40%float |};
     maxWidth := true; composites := None; style := "";
     legend := {| hideEmpty := true; hideZero := false |};
     mermaidThemeVariablesDark := noThemeVariables;
     mermaidThemeVariablesLight := noThemeVariables |}.

(** [s] with every occurrence of [var] replaced by [value]: what the host's
    variable interpolation does to one dashboard variable.  [n] bounds the
    length of [s]. *)
Fixpoint substitute (var value : string) (n : nat) (s : string) : string :=
  match n with
  | O => s
  | S n' =>
      match stripPrefix var s with
      | Some rest => (value ++ substitute var value n' rest)%string
      | None =>
          match s with
          | EmptyString => ""
          | String c s' => String c (substitute var value n' s')
          end
      end
  end.

Definition sampleProps (definition : string) (url : option string)
  (series : list DiagramSeriesModel) : DiagramPanelControllerProps :=
  {| isDark := false; panelId := 1%float;
     options := sampleOptions definition url;
     seriesData := series;
     replaceVariables := fun s => substitute "$host" "web01" (String.length s) s |}.

Definition sampleResponse (code : Z) (reason body : string) : Response :=
  {| status := code; statusText := reason; responseText := body |}.

Definition parseError : JsError :=
  {| errorName := "Error"; message := "Parse error on line 1" |}.

(** Renderers of the examples: one that renders every text, one that
    rejects every text. *)
Definition renderingServices (response : completion Response) : Services :=
  {| fetch := fun _ => response;
     render := fun _ _ _ => Normal {| svg := demoSvgMarkup; bindFunctions := None |} |}.

Definition failingServices : Services :=
  {| fetch := fun _ => Throw {| errorName := "TypeError"; message := "Failed to fetch" |};
     render := fun _ _ _ => Throw parseError |}.

Definition sampleSeries (n : string) (rows : list (DiagramSeriesValue * DiagramSeriesValue))
  : DiagramSeriesModel :=
  {| label := n;
     custom := Some {| customValueName := "last" |};
     info := Some [ {| text := "42"; numeric := 42%float; prefix := None;
                       suffix := Some " %"; color := Some "red";
                       title := Some "last" |} ];
     data := rows; isVisible := true |}.

Definition directiveDefinition : string :=
  "%%{init: {'theme': 'forest'}}%% graph LR; cpu --> $host".

Definition partlyNullSeries : list (DiagramSeriesValue * DiagramSeriesValue) :=
  [(Some 1%float, Some 5%float); (Some 2%float, None)].

(** A series name that ends in a double quote (a disk of 3.5 inch). *)
Definition quotedName : string := ("disk 3.5" ++ dquote)%string.


Definition cpuIndicator : MetricIndicator :=
  {| displayValue := {| text := "42"; numeric := 42%float; prefix := None;
                        suffix := Some " %"; color := Some "red";
                        title := Some "last" |};
     metricName := "cpu"; valueName := Some "last"; isComposite := None;
     originalName := None |}.

(** A flowchart node whose label has two lines. *)
Definition twoLineSvg : node :=
  Element "svg" [("id", "diagram-1")]
    [Element "g" [("class", "node default"); ("data-id", "cpu")]
       [Element "rect" [("class", "basic")] [];
        Element "g" [("class", "label")]
          [Element "foreignObject" [("width", "64"); ("height", "48")]
             [Element "div" []
                [TextNode "CPU"; Element "br" [] []; TextNode "load"]]]]].

(** ** Notions for the further properties *)

(** An indicator as the composite reduction leaves a winner: tagged
    composite, named after one of the [known] composites, with an original
    name on record. *)
Definition tagged (known : list CompositeMetric) (ind : MetricIndicator) : Prop :=
  isComposite ind = Some true /\
  (exists c, In c known /\ metricName ind = name c) /\
  is_Some (originalName ind).

(** The value an object literal with the properties [o], written in this
    order, has for the key [k]: the last one written. *)
Definition lastBinding (k : string) (o : list (string * string)) : option string :=
  lookupAttr k (rev o).

(** The first of two optional values that is there. *)
Definition orElse {A} (x y : option A) : option A :=
  match x with Some _ => x | None => y end.

(** The legend item [getLegendItems] builds for a series it keeps. *)
Definition legendItemOf (s : DiagramSeriesModel) : VizLegendItem :=
  {| legendLabel := label s; legendColor := "";
     disabled := negb (isVisible s); yAxis := 0;
     getDisplayValues := default [] (info s) |}.

(** Whether the rule of the legend keeps the series. *)
Definition keptInLegend (l : LegendOptions) (s : DiagramSeriesModel) : bool :=
  negb (shouldHideLegendItem (data s) (hideEmpty l) (hideZero l)).

(** A value that [current[1] || 0] reads as 0: null, 0, -0 or NaN. *)
Definition falsyValue (v : DiagramSeriesValue) : Prop :=
  match v with
  | Some x => Num.truthy x = false
  | None => True
  end.

(** *** [onToggleSort]

    The sort settings of the legend, the two properties of
    [options.legend] the handler reads and writes; either may be missing
    from a saved panel. *)
Record LegendSort := {
  sortBy : option string;
  sortDesc : option bool
}.

(** [sortBy === options.legend.sortBy] *)
Definition sameColumn (sortBy' : string) (current : option string) : bool :=
  match current with
  | Some c => String.eqb sortBy' c
  | None => false
  end.

(** [!options.legend.sortDesc]: a missing property reads as [undefined],
    whose negation is [true]. *)
Definition notDesc (d : option bool) : bool :=
  match d with
  | Some b => negb b
  | None => true
  end.

(** The sort settings of the options handed to [onOptionsChange]; the
    spreads copy every other property of the options and of the legend. *)
Definition onToggleSort (current : LegendSort) (sortBy' : string) : LegendSort :=
  {| sortBy := Some sortBy';
     sortDesc := Some (if sameColumn sortBy' (sortBy current)
                       then notDesc (sortDesc current) else false) |}.

(** A renderer of the examples whose first result comes with a binding
    function that throws. *)
Definition bindError : JsError :=
  {| errorName := "TypeError"; message := "callback is not a function" |}.

Definition bindFailingServices : Services :=
  {| fetch := fun _ => Unmodelled;
     render := fun call _ _ =>
       Normal {| svg := demoSvgMarkup;
                 bindFunctions :=
                   match call with
                   | O => Some (fun _ doc => Thrown bindError doc)
                   | S _ => None
                   end |} |}.

(** The document after the two size tweaks that [updateDiagramStyle] makes
    on the [svg] element and its parent before it processes the
    indicators. *)
Definition sizeTweaks `{Platform} (options : DiagramOptions) (svg : path) (doc : node)
  : node :=
  let doc1 :=
    if maxWidth options
    then d3_style "max-height" "100%" svg (d3_style "max-width" "100%" svg doc)
    else doc in
  if negb (maxWidth options)
  then setAttribute (parentPath svg) "style" "overflow-y: scroll" doc1
  else doc1.

(** The tag of the node at [p]. *)
Definition tagAt (doc : node) (p : path) : option string :=
  tagName <$> getNode doc p.

(** [p] is [q] or an ancestor of [q]. *)
Definition atOrAbove (p q : path) : Prop := p = q \/ strictlyBelow p q = true.

(** The indicator that [reduceModels] makes of a display value of a
    series. *)
Definition indicatorOf (m : DiagramSeriesModel) (dv : DisplayValue) : MetricIndicator :=
  {| displayValue := dv; metricName := label m; valueName := title dv;
     isComposite := None; originalName := None |}.

(** [dv] is, by position, the first display value of the series whose title
    is the value name configured for the series. *)
Definition firstOfTitle (m : DiagramSeriesModel) (dv : DisplayValue) : Prop :=
  exists cfg dvs k,
    custom m = Some cfg /\ info m = Some dvs /\
    dvs !! k = Some dv /\ title dv = Some (customValueName cfg) /\
    forall j dv', j < k -> dvs !! j = Some dv' ->
                  title dv' <> Some (customValueName cfg).

(** ** A pass over a page that changes

    The code reads [diagramRef.current] anew each time it needs the
    container, and between two reads that an [await] separates the page can
    have unmounted the panel: the ref is then [null].  It calls
    [mermaid.initialize] before the [try].  A [Host] says what the page does
    around a pass. *)
Record Host := {
  (** how [mermaid.initialize(mermaidOptions)] ends *)
  initialize : completion unit;
  (** [diagramRef.current] once the pass has resumed [n] times: at its
      start (0), after loading (1), after the first render call (2), after
      the second (3) *)
  currentAt : nat -> option (list nat);
  (** what the page did to the document while the pass waited for the
      [n]-th time *)
  meanwhile : nat -> node -> node
}.

(** The page that stands still. *)
Definition steady (diagramRef : option (list nat)) : Host :=
  {| initialize := Normal tt;
     currentAt := fun _ => diagramRef;
     meanwhile := fun _ doc => doc |}.

Section ChangingPage.

Context {platform : Platform}.

(** [null.innerHTML = ...] *)
Definition nullWriteError (what : string) : JsError :=
  {| errorName := "TypeError"; message := nullishWriteMessage what |}.

(** One render attempt: the awaited call of the renderer, and the two
    statements that follow it once the pass has resumed. *)
Definition renderIntoAt (host : Host) (services : Services) (call : nat)
  (diagramId definition : string) (doc : node) : outcome node :=
  let doc0 := meanwhile host (call + 2) doc in
  match render services call diagramId definition with
  | Normal result =>
      match currentAt host (call + 2) with
      | Some current =>
          let doc1 := setInnerHTML (svg result) current doc0 in
          match bindFunctions result with
          | Some bind => bind current doc1
          | None => Done doc1
          end
      | None => Thrown (nullWriteError "innerHTML") doc0
      end
  | Throw e => Thrown e doc0
  | Unmodelled => OutsideModel
  end.

Definition initializeMermaidIn (host : Host) (props : DiagramPanelControllerProps)
  (services : Services) (doc : node) : Pass :=
  match initialize host with
  | Throw e => {| document := doc; renderCalls := []; promise := Throw e |}
  | Unmodelled => {| document := doc; renderCalls := []; promise := Unmodelled |}
  | Normal _ =>
  match currentAt host 0 with
  | None => {| document := doc; renderCalls := []; promise := Normal tt |}
  | Some _ =>
      let doc0 := meanwhile host 1 doc in
      match loadDiagramDefinition props services with
      | Throw e => {| document := doc0; renderCalls := []; promise := Throw e |}
      | Unmodelled => {| document := doc0; renderCalls := []; promise := Unmodelled |}
      | Normal diagramDefinition =>
          (* try *)
          let diagramId := ("diagram-" ++ numberToString (panelId props))%string in
          let interpolated :=
            replaceVariables props
              (contentProcessor (isDark props) (options props) diagramDefinition) in
          let primary := renderIntoAt host services 0 diagramId interpolated doc0 in
          let '(calls, resumed, rendered) :=
            match primary with
            | Thrown _ doc1 =>
                ([(diagramId, interpolated); (diagramId, diagramDefinition)], 3,
                 renderIntoAt host services 1 diagramId diagramDefinition doc1)
            | _ => ([(diagramId, interpolated)], 2, primary)
            end in
          match andThen rendered
                  (fun d =>
                     match currentAt host resumed with
                     | Some current =>
                         updateDiagramStyle current (seriesData props) (options props)
                           diagramId d
                     | None =>
                         (* [select(null).select('svg').node()] is [null] *)
                         Done d
                     end)
          with
          | Done doc2 =>
              {| document := doc2; renderCalls := calls; promise := Normal tt |}
          | Thrown err doc2 =>
              (* catch (err) *)
              match currentAt host resumed with
              | Some current =>
                  {| document := setInnerHTML (errorMarkup err) current doc2;
                     renderCalls := calls; promise := Normal tt |}
              | None =>
                  {| document := doc2; renderCalls := calls;
                     promise := Throw (nullWriteError "innerHTML") |}
              end
          | OutsideModel =>
              {| document := doc; renderCalls := calls; promise := Unmodelled |}
          end
      end
  end
  end.

End ChangingPage.

(** A page that unmounts the panel while the first render call is awaited:
    the container leaves the document and the ref is [null] from then on. *)
Definition unmountingHost : Host :=
  {| initialize := Normal tt;
     currentAt := fun n => if Nat.ltb n 2 then Some demoContainer else None;
     meanwhile := fun n doc =>
       if Nat.eqb n 2 then Element "div" [("class", "diagram-container")] []
       else doc |}.

(** * Lemmas and theorems *)

(** ** The order of numbers *)

Lemma SFcompare_key x y :
  sf_num x -> sf_num y ->
  match SFcompare x y with
  | Some Lt => key_lt (sf_key x) (sf_key y)
  | Some Eq => sf_key x = sf_key y
  | Some Gt => key_lt (sf_key y) (sf_key x)
  | None => False
  end.
Proof.
  unfold sf_num.
  destruct x as [s1|s1| |s1 m1 e1], y as [s2|s2| |s2 m2 e2];
    intros Hx Hy; try congruence; simpl;
    try (destruct s1); try (destruct s2); simpl; try lia; try reflexivity.
  all: change (Pos.compare_cont Eq m1 m2) with (Pos.compare m1 m2).
  all: destruct (Z.compare_spec e1 e2), (Pos.compare_spec m1 m2);
    simpl; subst; try reflexivity; lia.
Qed.

Lemma SFltb_key x y :
  sf_num x -> sf_num y -> (SFltb x y = true <-> key_lt (sf_key x) (sf_key y)).
Proof.
  intros Hx Hy. generalize (SFcompare_key x y Hx Hy). unfold SFltb.
  destruct (sf_key x) as [[a b] c], (sf_key y) as [[a' b'] c'].
  destruct (SFcompare x y) as [[]|]; simpl; intros H; split; intros H';
    try discriminate; try reflexivity; try tauto;
    try injection H as -> -> ->; lia.
Qed.

Lemma SFleb_key x y :
  sf_num x -> sf_num y ->
  (SFleb x y = true <-> ~ key_lt (sf_key y) (sf_key x)).
Proof.
  intros Hx Hy. generalize (SFcompare_key x y Hx Hy). unfold SFleb.
  destruct (sf_key x) as [[a b] c], (sf_key y) as [[a' b'] c'].
  destruct (SFcompare x y) as [[]|]; simpl; intros H; split; intros H';
    try discriminate; try reflexivity; try tauto;
    try injection H as -> -> ->; try lia.
Qed.

Lemma SFcompare_refl x : sf_num x -> SFcompare x x = Some Eq.
Proof.
  intros Hx. generalize (SFcompare_key x x Hx Hx).
  destruct (sf_key x) as [[a b] c].
  destruct (SFcompare x x) as [[]|]; simpl; intros H;
    try reflexivity; try lia; tauto.
Qed.

Lemma SFltb_num x y : SFltb x y = true -> sf_num x /\ sf_num y.
Proof.
  unfold SFltb, sf_num. destruct x, y; simpl; try discriminate;
    split; congruence.
Qed.

Lemma isNaN_false x : Num.isNaN x = false <-> sf_num (Prim2SF x).
Proof.
  unfold Num.isNaN, is_nan. rewrite FloatAxioms.eqb_spec. unfold SFeqb. split.
  - intros H Hn. rewrite Hn in H. discriminate.
  - intros H. rewrite (SFcompare_refl _ H). reflexivity.
Qed.

Lemma lt_key x y :
  Num.isNaN x = false -> Num.isNaN y = false ->
  (Num.lt x y = true <-> key_lt (sf_key (Prim2SF x)) (sf_key (Prim2SF y))).
Proof.
  rewrite !isNaN_false. unfold Num.lt. rewrite FloatAxioms.ltb_spec.
  apply SFltb_key.
Qed.

Lemma le_key x y :
  Num.isNaN x = false -> Num.isNaN y = false ->
  (Num.le x y = true <-> ~ key_lt (sf_key (Prim2SF y)) (sf_key (Prim2SF x))).
Proof.
  rewrite !isNaN_false. unfold Num.le. rewrite FloatAxioms.leb_spec.
  apply SFleb_key.
Qed.

Lemma lt_isNaN x y :
  Num.lt x y = true -> Num.isNaN x = false /\ Num.isNaN y = false.
Proof.
  unfold Num.lt. rewrite FloatAxioms.ltb_spec, !isNaN_false. apply SFltb_num.
Qed.

(** [x <= y] holds exactly when [y < x] fails, away from NaN. *)
Lemma le_not_lt x y :
  Num.isNaN x = false -> Num.isNaN y = false ->
  Num.le x y = negb (Num.lt y x).
Proof.
  intros Hx Hy. destruct (Num.lt y x) eqn:E; simpl.
  - apply (lt_key y x Hy Hx) in E.
    destruct (Num.le x y) eqn:E'; [|reflexivity].
    apply (le_key x y Hx Hy) in E'. contradiction.
  - apply (le_key x y Hx Hy). intros Hk.
    apply (lt_key y x Hy Hx) in Hk. congruence.
Qed.

Lemma le_refl x : Num.isNaN x = false -> Num.le x x = true.
Proof.
  intros Hx. apply (le_key x x Hx Hx).
  destruct (sf_key (Prim2SF x)) as [[a b] c]. simpl. lia.
Qed.

Lemma le_trans x y z :
  Num.isNaN x = false -> Num.isNaN y = false -> Num.isNaN z = false ->
  Num.le x y = true -> Num.le y z = true -> Num.le x z = true.
Proof.
  intros Hx Hy Hz.
  rewrite (le_key x y), (le_key y z), (le_key x z) by assumption.
  destruct (sf_key (Prim2SF x)) as [[a b] c],
           (sf_key (Prim2SF y)) as [[a' b'] c'],
           (sf_key (Prim2SF z)) as [[a'' b''] c'']. simpl. lia.
Qed.

Lemma lt_le x y : Num.lt x y = true -> Num.le x y = true.
Proof.
  intros H. destruct (lt_isNaN _ _ H) as [Hx Hy].
  apply (lt_key x y Hx Hy) in H. apply (le_key x y Hx Hy).
  destruct (sf_key (Prim2SF x)) as [[a b] c],
           (sf_key (Prim2SF y)) as [[a' b'] c']. simpl in *. lia.
Qed.

(** ** [reduceComposites] *)

Lemma valueOrZero_number i : Num.isNaN (valueOrZero i) = false.
Proof.
  unfold valueOrZero. destruct (Num.isNaN (numeric i)) eqn:E.
  - reflexivity.
  - exact E.
Qed.

Lemma beats_refl b w : beats b w w.
Proof. destruct b; simpl; apply le_refl, valueOrZero_number. Qed.

Lemma beats_trans b w x y : beats b w x -> beats b x y -> beats b w y.
Proof.
  destruct b; simpl; intros H1 H2.
  - eapply le_trans; eauto using valueOrZero_number.
  - eapply le_trans; eauto using valueOrZero_number.
Qed.

Lemma pickComposite_cases b prev current :
  let w := pickComposite b prev current in
  (w = prev \/ w = current) /\ beats b w prev /\ beats b w current.
Proof.
  unfold pickComposite, beats.
  destruct (Num.lt (valueOrZero (snd current)) (valueOrZero (snd prev))) eqn:E;
    destruct b; simpl; (split; [tauto|]); split;
    try (apply le_refl, valueOrZero_number);
    try (apply lt_le; exact E);
    rewrite le_not_lt, E by apply valueOrZero_number; reflexivity.
Qed.

Lemma reduce1_extremum b rest : forall first,
  let w := reduce1 (pickComposite b) first rest in
  In w (first :: rest) /\ forall x, In x (first :: rest) -> beats b w x.
Proof.
  unfold reduce1. induction rest as [|a rest IH]; intros first; simpl.
  - split; [left; reflexivity|]. intros x [<-|[]]. apply beats_refl.
  - destruct (IH (pickComposite b first a)) as [Hin Hall].
    destruct (pickComposite_cases b first a) as [Hw [Hf Ha]].
    simpl in Hw, Hf, Ha. split.
    + destruct Hin as [Hin|Hin]; [|right; right; exact Hin].
      rewrite <- Hin. destruct Hw as [->| ->]; [left|right;left]; reflexivity.
    + intros x [<-|[<-|Hx]].
      * eapply beats_trans; [apply Hall; left; reflexivity | exact Hf].
      * eapply beats_trans; [apply Hall; left; reflexivity | exact Ha].
      * apply Hall. right. exact Hx.
Qed.



(** The example of the specification: values 5, 2, 8. *)
Example reduceComposites_528_lowest :
  let '(indicators, refs) := reduceComposites sample528 [sampleComposite true] in
  map (fun r => ((fun i : MetricIndicator => numeric i) <$> indicators !! r, metricName <$> indicators !! r,
                 originalName <$> indicators !! r)) refs
  = [(Some 2%float, Some "group", Some (Some "b"))].
Proof. reflexivity. Qed.

Example reduceComposites_528_highest :
  let '(indicators, refs) := reduceComposites sample528 [sampleComposite false] in
  map (fun r => ((fun i : MetricIndicator => numeric i) <$> indicators !! r, metricName <$> indicators !! r,
                 originalName <$> indicators !! r)) refs
  = [(Some 8%float, Some "group", Some (Some "c"))].
Proof. reflexivity. Qed.

(** *** Ties *)

Lemma last_nonempty_default {A} (b : A) (l : list A) (d d' : A) :
  List.last (b :: l) d = List.last (b :: l) d'.
Proof.
  revert b. induction l as [|c l IH]; intros b; [reflexivity|].
  change (List.last (c :: l) d = List.last (c :: l) d'). apply IH.
Qed.

Lemma last_cons_default {A} (a d : A) (l : list A) :
  List.last (a :: l) d = List.last l a.
Proof.
  destruct l as [|b l]; [reflexivity|].
  change (List.last (b :: l) d = List.last (b :: l) a).
  apply last_nonempty_default.
Qed.

Lemma valueOrZero_NaN (i : MetricIndicator) : Num.isNaN (numeric i) = true -> valueOrZero i = 0%float.
Proof. unfold valueOrZero. intros ->. reflexivity. Qed.

Lemma reduce1_all_zero b rest : forall first,
  (forall x, In x (first :: rest) -> valueOrZero (snd x) = 0%float) ->
  reduce1 (pickComposite b) first rest
  = if b then first else List.last rest first.
Proof.
  unfold reduce1. induction rest as [|a rest IH]; intros first Hall.
  - destruct b; reflexivity.
  - simpl fold_left.
    assert (Hp : pickComposite b first a = if b then first else a).
    { unfold pickComposite.
      rewrite (Hall first), (Hall a) by (simpl; tauto).
      destruct b; reflexivity. }
    rewrite Hp, IH.
    + destruct b; [reflexivity|]. symmetry. apply last_cons_default.
    + intros x [<-|Hx]; apply Hall; destruct b; simpl; tauto.
Qed.

(** With [showLowestValue] unset and two NaN members, the reduction returns
    the second candidate, not the first. *)
Lemma all_NaN_not_always_first :
  ~ (forall lowest,
       fst <$> compositeWinner twoNaN (nanComposite lowest)
       = fst <$> head (candidatesOf twoNaN (nanComposite lowest))).
Proof.
  intros H. specialize (H false). vm_compute in H. discriminate H.
Qed.

(** C3 (amended): when every candidate of a composite has a NaN value, every
    candidate is compared as 0, and the reduction returns the first candidate
    when [showLowestValue] is set and the last candidate when it is not. *)
Theorem reduceComposite_all_NaN
  (indicators : store) (c : CompositeMetric)
  (first : ref * MetricIndicator) (rest : list (ref * MetricIndicator)) :
  candidatesOf indicators c = first :: rest ->
  (forall x, In x (first :: rest) -> Num.isNaN (numeric (snd x)) = true) ->
  (forall x, In x (first :: rest) -> valueOrZero (snd x) = 0%float) /\
  compositeWinner indicators c
  = Some (if showLowestValue c then first else List.last rest first).
Proof.
  intros Hc Hnan.
  assert (Hz : forall x, In x (first :: rest) -> valueOrZero (snd x) = 0%float).
  { intros x Hx. apply valueOrZero_NaN, Hnan, Hx. }
  split; [exact Hz|].
  unfold compositeWinner. rewrite Hc. f_equal.
  apply reduce1_all_zero, Hz.
Qed.

Lemma reduceComposite_all_NaN_witness :
  (forall x, In x [(0, sampleIndicator "a" PrimFloat.nan);
                   (1, sampleIndicator "b" PrimFloat.nan)] ->
     valueOrZero (snd x) = 0%float) /\
  compositeWinner twoNaN (nanComposite false)
  = Some (1, sampleIndicator "b" PrimFloat.nan).
Proof.
  apply (reduceComposite_all_NaN twoNaN (nanComposite false)
           (0, sampleIndicator "a" PrimFloat.nan)
           [(1, sampleIndicator "b" PrimFloat.nan)]).
  - reflexivity.
  - intros x [<-|[<-|[]]]; reflexivity.
Defined.

(** ** The panel controller *)

Section ControllerFacts.

Context {platform : Platform}.

Lemma contentProcessor_directive (dark : bool) (o : DiagramOptions) (definition : string) :
  hasInitDirective definition = true ->
  contentProcessor dark o definition = definition.
Proof. intros H. unfold contentProcessor. rewrite H. reflexivity. Qed.

Lemma initializeMermaid_calls
  (props : DiagramPanelControllerProps) (services : Services)
  (current : list nat) (doc : node) (definition : string) :
  loadDiagramDefinition props services = Normal definition ->
  let pass := initializeMermaid props services (Some current) doc in
  renderCalls pass = [(diagramIdOf props, interpolatedOf props definition)]
  \/ renderCalls pass = [(diagramIdOf props, interpolatedOf props definition);
                         (diagramIdOf props, definition)].
Proof.
  intros Hload. unfold initializeMermaid. rewrite Hload.
  fold (diagramIdOf props). fold (interpolatedOf props definition).
  destruct (renderInto services 0 (diagramIdOf props)
              (interpolatedOf props definition) current doc) as [d|e d|] eqn:E.
  - left. simpl. destruct (updateDiagramStyle _ _ _ _ d); reflexivity.
  - right.
    destruct (andThen _ _); reflexivity.
  - left. reflexivity.
Qed.

(** C4 (amended): for a definition that holds an initialization directive,
    [contentProcessor] returns the text as it is (no theme merge, no second
    directive); the first render call receives that text after the host's
    variable interpolation, so it receives the definition byte for byte
    when interpolation leaves the definition unchanged; a second render
    call, when there is one, receives the definition as loaded. *)
Theorem directive_passes_through
  (props : DiagramPanelControllerProps) (services : Services)
  (current : list nat) (doc : node) (definition : string) :
  loadDiagramDefinition props services = Normal definition ->
  hasInitDirective definition = true ->
  let pass := initializeMermaid props services (Some current) doc in
  contentProcessor (isDark props) (options props) definition = definition /\
  head (renderCalls pass)
    = Some (diagramIdOf props, replaceVariables props definition) /\
  (replaceVariables props definition = definition ->
   forall call, In call (renderCalls pass) -> snd call = definition) /\
  (forall call, In call (renderCalls pass) ->
     snd call = replaceVariables props definition \/ snd call = definition).
Proof.
  intros Hload Hdir pass.
  assert (Hcp := contentProcessor_directive (isDark props) (options props) _ Hdir).
  assert (Hi : interpolatedOf props definition = replaceVariables props definition).
  { unfold interpolatedOf. rewrite Hcp. reflexivity. }
  destruct (initializeMermaid_calls props services current doc definition Hload)
    as [Hc|Hc]; fold pass in Hc; rewrite Hi in Hc; rewrite Hc.
  - split; [exact Hcp|]. split; [reflexivity|]. split.
    + intros Hid call [<-|[]]. exact Hid.
    + intros call [<-|[]]. left. reflexivity.
  - split; [exact Hcp|]. split; [reflexivity|]. split.
    + intros Hid call [<-|[<-|[]]]; [exact Hid | reflexivity].
    + intros call [<-|[<-|[]]]; [left | right]; reflexivity.
Qed.

End ControllerFacts.

(** A definition with a directive and a dashboard variable reaches the
    renderer with the variable replaced: not byte for byte. *)
Lemma directive_definition_is_interpolated :
  hasInitDirective directiveDefinition = true /\
  ~ (forall call,
       In call (renderCalls
                  (initializeMermaid (sampleProps directiveDefinition None [])
                     (renderingServices Unmodelled) (Some demoContainer)
                     (demoDocument []))) ->
       snd call = directiveDefinition).
Proof.
  split; [reflexivity|].
  intros H. specialize (H _ (or_introl eq_refl)). vm_compute in H. discriminate H.
Qed.

Lemma directive_passes_through_witness :
  let props := sampleProps directiveDefinition None [] in
  let pass := initializeMermaid props (renderingServices Unmodelled)
                (Some demoContainer) (demoDocument []) in
  contentProcessor (isDark props) (options props) directiveDefinition
    = directiveDefinition /\
  head (renderCalls pass)
    = Some (diagramIdOf props, replaceVariables props directiveDefinition) /\
  (replaceVariables props directiveDefinition = directiveDefinition ->
   forall call, In call (renderCalls pass) -> snd call = directiveDefinition) /\
  (forall call, In call (renderCalls pass) ->
     snd call = replaceVariables props directiveDefinition
     \/ snd call = directiveDefinition).
Proof.
  apply (directive_passes_through (sampleProps directiveDefinition None [])
           (renderingServices Unmodelled) demoContainer (demoDocument [])
           directiveDefinition); reflexivity.
Defined.

(** *** Strings *)

Lemma stripPrefix_app (u t : string) : stripPrefix u (u ++ t) = Some t.
Proof.
  induction u as [|c u IH]; simpl; [reflexivity|].
  rewrite Ascii.eqb_refl. exact IH.
Qed.

Lemma stripPrefix_app_l (u s t r : string) :
  stripPrefix u s = Some r -> stripPrefix u (s ++ t) = Some (r ++ t)%string.
Proof.
  revert s. induction u as [|c u IH]; intros s H; simpl in *.
  - congruence.
  - destruct s as [|d s]; [discriminate|]. simpl.
    destruct (Ascii.eqb c d); [apply IH, H | discriminate].
Qed.

Lemma occursIn_unfold (sub s : string) :
  occursIn sub s
  = match stripPrefix sub s with
    | Some _ => true
    | None =>
        match s with
        | EmptyString => false
        | String _ s' => occursIn sub s'
        end
    end.
Proof. destruct s; reflexivity. Qed.

Lemma includes_here (u t : string) : includes (u ++ t) u = true.
Proof.
  unfold includes. rewrite occursIn_unfold, stripPrefix_app. reflexivity.
Qed.

Lemma includes_app_r (s t u : string) :
  includes t u = true -> includes (s ++ t) u = true.
Proof.
  unfold includes. intros H. induction s as [|c s IH]; [exact H|].
  change (String c s ++ t)%string with (String c (s ++ t)).
  rewrite occursIn_unfold, IH.
  destruct (stripPrefix u (String c (s ++ t))); reflexivity.
Qed.

Lemma includes_app_l (s t u : string) :
  includes s u = true -> includes (s ++ t) u = true.
Proof.
  unfold includes. induction s as [|c s IH]; intros H.
  - rewrite occursIn_unfold in H. rewrite occursIn_unfold.
    destruct (stripPrefix u "") eqn:E; [|discriminate].
    rewrite (stripPrefix_app_l u "" t _ E). reflexivity.
  - rewrite occursIn_unfold in H.
    change (String c s ++ t)%string with (String c (s ++ t)).
    rewrite occursIn_unfold.
    destruct (stripPrefix u (String c s)) eqn:E.
    + pose proof (stripPrefix_app_l u (String c s) t _ E) as E'.
      change (String c s ++ t)%string with (String c (s ++ t)) in E'.
      rewrite E'. reflexivity.
    + rewrite (IH H). destruct (stripPrefix u (String c (s ++ t))); reflexivity.
Qed.

Lemma append_empty (u : string) : (u ++ "")%string = u.
Proof. induction u as [|c u IH]; simpl; [reflexivity | rewrite IH; reflexivity]. Qed.

Lemma includes_self (u : string) : includes u u = true.
Proof.
  assert (H := includes_here u ""). rewrite append_empty in H. exact H.
Qed.

Lemma errorToString_has_message (e : JsError) :
  includes (errorToString e) (message e) = true.
Proof.
  unfold errorToString.
  destruct (String.eqb (errorName e) ""); [apply includes_self|].
  destruct (String.eqb (message e) "") eqn:E.
  - apply String.eqb_eq in E. rewrite E. destruct (errorName e); reflexivity.
  - apply includes_app_r, includes_app_r, includes_self.
Qed.

Lemma errorMarkup_has_message (e : JsError) :
  includes (errorMarkup e) (message e) = true.
Proof.
  unfold errorMarkup. apply includes_app_r, includes_app_l.
  apply errorToString_has_message.
Qed.

Section PassFacts.

Context {platform : Platform}.

(** C6: when the first render call throws, the pass calls the renderer
    exactly once more, with the same diagram id and the definition as it was
    loaded; when that call throws too, the pass makes no further call, the
    promise still resolves, and the container's content becomes the error
    markup, which holds the caught error's message. *)
Theorem fallback_render_once
  (props : DiagramPanelControllerProps) (services : Services)
  (current : list nat) (doc : node) (definition : string) (e : JsError) :
  loadDiagramDefinition props services = Normal definition ->
  render services 0 (diagramIdOf props) (interpolatedOf props definition) = Throw e ->
  let pass := initializeMermaid props services (Some current) doc in
  renderCalls pass = [(diagramIdOf props, interpolatedOf props definition);
                      (diagramIdOf props, definition)] /\
  (forall err,
     render services 1 (diagramIdOf props) definition = Throw err ->
     document pass = setInnerHTML (errorMarkup err) current doc /\
     promise pass = Normal tt /\
     includes (errorMarkup err) (message err) = true).
Proof.
  intros Hload Hthrow.
  assert (Hp : renderInto services 0 (diagramIdOf props)
                 (interpolatedOf props definition) current doc = Thrown e doc).
  { unfold renderInto. rewrite Hthrow. reflexivity. }
  cbv zeta. unfold initializeMermaid.
  rewrite Hload. fold (diagramIdOf props). fold (interpolatedOf props definition).
  rewrite Hp. split.
  - destruct (andThen _ _); reflexivity.
  - intros err Herr.
    assert (Hf : renderInto services 1 (diagramIdOf props) definition current doc
                 = Thrown err doc).
    { unfold renderInto. rewrite Herr. reflexivity. }
    rewrite Hf. simpl. repeat split. apply errorMarkup_has_message.
Qed.

(** C5: when the fetch of the definition answers with a status outside 200
    to 299, the pass is settled before the [try] block is entered: its
    promise rejects with the explicit error and no render is attempted, but
    the document is left as it was, so no error markup is written into the
    container. *)
Theorem fetch_failure_rejects
  (props : DiagramPanelControllerProps) (services : Services)
  (current : list nat) (doc : node) (url : string) (response : Response) :
  truthyString (contentUrl (options props)) = Some url ->
  fetch services (replaceVariables props url) = Normal response ->
  ok response = false ->
  initializeMermaid props services (Some current) doc
  = {| document := doc; renderCalls := [];
       promise := Throw {| errorName := "Error";
                           message := "Failed to fetch diagram definition: "
                                      ++ numberToString (Num.ofZ (status response))
                                      ++ " " ++ statusText response |} |}.
Proof.
  intros Hurl Hfetch Hok. unfold initializeMermaid, loadDiagramDefinition.
  rewrite Hurl. unfold getRemoteDiagramDefinition. rewrite Hfetch. simpl.
  rewrite Hok. reflexivity.
Qed.

End PassFacts.

Lemma fallback_render_once_witness :
  let props := sampleProps "graph LR; cpu --> mem" None [] in
  let pass := initializeMermaid props failingServices (Some demoContainer)
                (demoDocument []) in
  renderCalls pass = [(diagramIdOf props, interpolatedOf props "graph LR; cpu --> mem");
                      (diagramIdOf props, "graph LR; cpu --> mem")] /\
  (forall err,
     render failingServices 1 (diagramIdOf props) "graph LR; cpu --> mem" = Throw err ->
     document pass = setInnerHTML (errorMarkup err) demoContainer (demoDocument []) /\
     promise pass = Normal tt /\
     includes (errorMarkup err) (message err) = true).
Proof.
  apply (fallback_render_once (sampleProps "graph LR; cpu --> mem" None [])
           failingServices demoContainer (demoDocument [])
           "graph LR; cpu --> mem" parseError); reflexivity.
Defined.

Lemma fetch_failure_rejects_witness :
  let doc := demoDocument [TextNode "previous diagram"] in
  initializeMermaid
    (sampleProps "" (Some "https://example.org/flow.mmd") [])
    (renderingServices (Normal (sampleResponse 404 "Not Found" "")))
    (Some demoContainer) doc
  = {| document := doc; renderCalls := [];
       promise := Throw {| errorName := "Error";
                           message := "Failed to fetch diagram definition: "
                                      ++ numberToString (Num.ofZ 404)
                                      ++ " " ++ "Not Found" |} |}.
Proof.
  apply (fetch_failure_rejects
           (sampleProps "" (Some "https://example.org/flow.mmd") [])
           (renderingServices (Normal (sampleResponse 404 "Not Found" "")))
           demoContainer (demoDocument [TextNode "previous diagram"])
           "https://example.org/flow.mmd" (sampleResponse 404 "Not Found" ""));
    reflexivity.
Defined.

(** The message of that error, as the platform of the examples prints it. *)
Example fetch_404_message :
  ("Failed to fetch diagram definition: " ++ numberToString (Num.ofZ 404)
   ++ " " ++ "Not Found")%string
  = "Failed to fetch diagram definition: 404 Not Found".
Proof. reflexivity. Qed.

(** ** The legend *)

Lemma fold_andb_false {A} (f : A -> bool) (l : list A) :
  fold_left (fun acc x => acc && f x) l false = false.
Proof. induction l; simpl; auto. Qed.

Lemma fold_andb_forallb {A} (f : A -> bool) (l : list A) :
  fold_left (fun acc x => acc && f x) l true = forallb f l.
Proof.
  induction l as [|a l IH]; simpl; [reflexivity|].
  destruct (f a); simpl; [exact IH | apply fold_andb_false].
Qed.

(** What the hide rule computes: [hideEmpty] hides a series as soon as one
    of its values is null. *)
Lemma shouldHideLegendItem_computes
  (rows : list (DiagramSeriesValue * DiagramSeriesValue)) (hideEmpty hideZero : bool) :
  shouldHideLegendItem rows hideEmpty hideZero
  = (hideEmpty && existsb (fun row => isNull (snd row)) rows)
    || (hideZero && Num.strictEq (seriesSum rows) 0%float).
Proof.
  unfold shouldHideLegendItem, seriesSum.
  rewrite (fold_andb_forallb (fun current => notNull (snd current))).
  f_equal. f_equal.
  induction rows as [|r rows IH]; simpl; [reflexivity|].
  unfold isNull at 1. destruct (notNull (snd r)); simpl; [exact IH | reflexivity].
Qed.

(** C9: a series with one number and one null, under [hideEmpty].  Not
    every value is null and the values do not sum to 0, yet the series is
    hidden and left out of the legend; an empty series, whose values are all
    null vacuously, is kept. *)
Theorem hideEmpty_hides_partly_null_series :
  forallb (fun row => isNull (snd row)) partlyNullSeries = false /\
  Num.strictEq (seriesSum partlyNullSeries) 0%float = false /\
  shouldHideLegendItem partlyNullSeries true false = true /\
  getLegendItems (sampleProps "" None [sampleSeries "cpu" partlyNullSeries]) = [] /\
  shouldHideLegendItem [] true false = false.
Proof. vm_compute. repeat split. Qed.

(** ** The DOM *)

Lemma getNode_updateNode_same (p : list nat) (f : node -> node) (doc : node) :
  getNode (updateNode p f doc) p = f <$> getNode doc p.
Proof.
  revert doc. induction p as [|i p IH]; intros doc; [reflexivity|].
  destruct doc as [s|t a ch]; [reflexivity|]. simpl.
  rewrite list_lookup_alter_eq. destruct (ch !! i); simpl; [apply IH | reflexivity].
Qed.

(** An update that keeps the children leaves every observation of the top
    of a node where it was, at the updated path too when the update does not
    change the observation. *)
Lemma observe_updateNode {X} (g : node -> X) (p q : list nat) (f : node -> node)
  (doc : node) :
  topOnly g -> keepsChildren f ->
  (p <> q \/ forall n, g (f n) = g n) ->
  g <$> getNode (updateNode p f doc) q = g <$> getNode doc q.
Proof.
  intros Hg Hf. revert q doc. induction p as [|i p IH]; intros q doc Hpq.
  - destruct q as [|j q].
    + destruct Hpq as [Hne|Hsame]; [congruence|]. simpl. f_equal. apply Hsame.
    + simpl. rewrite Hf. reflexivity.
  - destruct doc as [s|t a ch]; [reflexivity|].
    destruct q as [|j q]; simpl.
    + f_equal. apply Hg.
    + destruct (decide (i = j)) as [->|Hij].
      * rewrite list_lookup_alter_eq. destruct (ch !! j); simpl; [|reflexivity].
        apply IH. destruct Hpq as [Hne|Hsame]; [left; congruence | right; exact Hsame].
      * rewrite list_lookup_alter_ne by exact Hij. reflexivity.
Qed.

Lemma topOnly_getAttribute (a : string) : topOnly (getAttribute a).
Proof. intros t attrs ch ch'. reflexivity. Qed.

Lemma topOnly_isElement : topOnly isElement.
Proof. intros t attrs ch ch'. reflexivity. Qed.

Lemma keepsChildren_withAttribute (a v : string) : keepsChildren (withAttribute a v).
Proof. intros [s|t attrs ch]; reflexivity. Qed.

Lemma lookupAttr_storeAttr_same (a v : string) (attrs : list (string * string)) :
  lookupAttr a (storeAttr a v attrs) = Some v.
Proof.
  induction attrs as [|[k w] attrs IH]; simpl.
  - rewrite String.eqb_refl. reflexivity.
  - destruct (String.eqb k a) eqn:E; simpl; rewrite E; [reflexivity | exact IH].
Qed.

Lemma lookupAttr_storeAttr_other (a b v : string) (attrs : list (string * string)) :
  a <> b -> lookupAttr a (storeAttr b v attrs) = lookupAttr a attrs.
Proof.
  intros Hab. induction attrs as [|[k w] attrs IH]; simpl.
  - destruct (String.eqb b a) eqn:E; [|reflexivity].
    apply String.eqb_eq in E. congruence.
  - destruct (String.eqb k b) eqn:E; simpl.
    + apply String.eqb_eq in E. subst k.
      destruct (String.eqb b a) eqn:E'; [|reflexivity].
      apply String.eqb_eq in E'. congruence.
    + rewrite IH. reflexivity.
Qed.

Lemma getAttribute_withAttribute_other (a b v : string) (n : node) :
  a <> b -> getAttribute a (withAttribute b v n) = getAttribute a n.
Proof.
  intros Hab. destruct n as [s|t attrs ch]; [reflexivity|].
  apply lookupAttr_storeAttr_other, Hab.
Qed.

Lemma attrAt_getNode (doc : node) (p : list nat) (a : string) :
  attrAt doc p a = mjoin (getAttribute a <$> getNode doc p).
Proof. unfold attrAt. destruct (getNode doc p); reflexivity. Qed.

(** Setting an attribute leaves the other attributes of every element, and
    all attributes of the other elements. *)
Lemma attrAt_setAttribute_other (doc : node) (p q : list nat) (a b v : string) :
  p <> q \/ a <> b ->
  attrAt (setAttribute p b v doc) q a = attrAt doc q a.
Proof.
  intros H. rewrite !attrAt_getNode. unfold setAttribute.
  rewrite (observe_updateNode (getAttribute a)); [reflexivity | | |].
  - apply topOnly_getAttribute.
  - apply keepsChildren_withAttribute.
  - destruct H as [H|H]; [left; exact H | right].
    intros n. apply getAttribute_withAttribute_other, H.
Qed.

Lemma attrAt_setAttribute_same (doc : node) (p : list nat) (a v : string) :
  isElement <$> getNode doc p = Some true ->
  attrAt (setAttribute p a v doc) p a = Some v.
Proof.
  intros H. unfold attrAt, setAttribute. rewrite getNode_updateNode_same.
  destruct (getNode doc p) as [[s|t attrs ch]|]; try discriminate. simpl.
  apply lookupAttr_storeAttr_same.
Qed.

Lemma isElement_setAttribute (doc : node) (p q : list nat) (a v : string) :
  isElement <$> getNode (setAttribute p a v doc) q = isElement <$> getNode doc q.
Proof.
  unfold setAttribute. apply observe_updateNode.
  - apply topOnly_isElement.
  - apply keepsChildren_withAttribute.
  - right. intros [s|t attrs ch]; reflexivity.
Qed.

Lemma closest_matches (doc : node) (sel : list (list simpleSelector)) (p q : list nat) :
  closest doc sel p = Some q -> matchesAt doc sel q = true.
Proof.
  unfold closest. intros H. apply find_some in H. tauto.
Qed.

Lemma matchesAt_isElement (doc : node) (sel : list (list simpleSelector)) (q : list nat) :
  matchesAt doc sel q = true -> isElement <$> getNode doc q = Some true.
Proof.
  unfold matchesAt, matchesSelector. destruct (getNode doc q) as [n|]; [|discriminate].
  simpl. intros H. apply andb_true_iff in H. destruct H as [-> _]. reflexivity.
Qed.

(** ** [Math.max] *)

Lemma Math_max_bounds (x y : Num.number) :
  Num.isNaN x = false -> Num.isNaN y = false ->
  Num.le x (Num.Math_max x y) = true /\
  Num.le y (Num.Math_max x y) = true /\
  (Num.Math_max x y = x \/ Num.Math_max x y = y).
Proof.
  intros Hx Hy. unfold Num.Math_max. rewrite Hx, Hy. simpl.
  destruct (Num.lt x y) eqn:Exy.
  - split; [apply lt_le, Exy|]. split; [apply le_refl, Hy | right; reflexivity].
  - destruct (Num.lt y x) eqn:Eyx.
    + split; [apply le_refl, Hx|]. split; [apply lt_le, Eyx | left; reflexivity].
    + assert (Hxy : Num.le x y = true) by (rewrite le_not_lt, Eyx by assumption; reflexivity).
      assert (Hyx : Num.le y x = true) by (rewrite le_not_lt, Exy by assumption; reflexivity).
      destruct (get_sign x).
      * split; [exact Hxy|]. split; [apply le_refl, Hy | right; reflexivity].
      * split; [apply le_refl, Hx|]. split; [exact Hyx | left; reflexivity].
Qed.

(** ** [resizeGrouping] *)

Section ResizeFacts.

Context {platform : Platform}.

(** C8 (amended): when the element has a closest [g], [g.label] and
    [foreignObject], the resize helper writes to the foreignObject's width
    and height the larger of the configured minimum and the integer that
    [parseInt] reads at the start of the current attribute (1 when the
    attribute is absent or empty).  When that integer exists and the
    minimum is a number, the written value is at least the minimum and at
    least that integer: a fractional part of the current attribute is
    dropped. *)
Theorem resizeGrouping_written_size
  (element : list (list nat)) (first g lg fo : list nat)
  (nodeSize : NodeSizeOptions) (doc : node) :
  head element = Some first ->
  closest doc (typeSelector "g") first = Some g ->
  closest doc labelGroupSelector first = Some lg ->
  closest doc (typeSelector "foreignObject") first = Some fo ->
  let width := grownSize (attrAt doc fo "width") (minWidth nodeSize) in
  let height := grownSize (attrAt doc fo "height") (minHeight nodeSize) in
  exists doc',
    resizeGrouping element nodeSize doc = Done doc' /\
    attrAt doc' fo "width" = Some (numberToString width) /\
    attrAt doc' fo "height" = Some (numberToString height) /\
    (Num.isNaN (currentSize (attrAt doc fo "width")) = false ->
     Num.isNaN (minWidth nodeSize) = false ->
     Num.le (minWidth nodeSize) width = true /\
     Num.le (currentSize (attrAt doc fo "width")) width = true) /\
    (Num.isNaN (currentSize (attrAt doc fo "height")) = false ->
     Num.isNaN (minHeight nodeSize) = false ->
     Num.le (minHeight nodeSize) height = true /\
     Num.le (currentSize (attrAt doc fo "height")) height = true).
Proof.
  intros Hfirst Hg Hlg Hfo width height.
  assert (Hel : isElement <$> getNode doc fo = Some true).
  { eapply matchesAt_isElement, closest_matches, Hfo. }
  unfold resizeGrouping. rewrite Hfirst, Hg, Hlg, Hfo.
  rewrite !(attrAt_setAttribute_other doc g fo _ "transform")
    by (right; discriminate).
  fold width. fold height.
  eexists. split; [reflexivity|]. split; [|split; [|split]].
  - rewrite attrAt_setAttribute_other by (right; discriminate).
    apply attrAt_setAttribute_same.
    rewrite !isElement_setAttribute. exact Hel.
  - rewrite attrAt_setAttribute_other by (right; discriminate).
    rewrite attrAt_setAttribute_other by (right; discriminate).
    apply attrAt_setAttribute_same.
    rewrite !isElement_setAttribute. exact Hel.
  - intros Hc Hm. subst width. unfold grownSize.
    destruct (Math_max_bounds _ _ Hc Hm) as (H1 & H2 & _). tauto.
  - intros Hc Hm. subst height. unfold grownSize.
    destruct (Math_max_bounds _ _ Hc Hm) as (H1 & H2 & _). tauto.
Qed.

End ResizeFacts.

(** The label of the example is 64.5 wide; with a minimum of 30 the helper
    writes 64, which is less than the current width. *)
Lemma resizeGrouping_drops_fraction :
  let nodeSize := {| minWidth := 30%float; minHeight := 40%float |} in
  attrAt demoSvg [0; 1; 0] "width" = Some "64.5" /\
  (exists doc',
     resizeGrouping [[0; 1; 0; 0]] nodeSize demoSvg = Done doc' /\
     attrAt doc' [0; 1; 0] "width" = Some (numberToString 64%float)) /\
  grownSize (Some "64.5") (minWidth nodeSize) = 64%float /\
  Num.lt 64%float 64.5%float = true /\
  Num.le 64.5%float (grownSize (Some "64.5") (minWidth nodeSize)) = false.
Proof.
  split; [reflexivity|]. split; [eexists; split; vm_compute; reflexivity|].
  repeat split; vm_compute; reflexivity.
Qed.

Lemma resizeGrouping_written_size_witness :
  let nodeSize := {| minWidth := 30%float; minHeight := 40%float |} in
  let width := grownSize (attrAt demoSvg [0; 1; 0] "width") (minWidth nodeSize) in
  let height := grownSize (attrAt demoSvg [0; 1; 0] "height") (minHeight nodeSize) in
  exists doc',
    resizeGrouping [[0; 1; 0; 0]] nodeSize demoSvg = Done doc' /\
    attrAt doc' [0; 1; 0] "width" = Some (numberToString width) /\
    attrAt doc' [0; 1; 0] "height" = Some (numberToString height) /\
    (Num.isNaN (currentSize (attrAt demoSvg [0; 1; 0] "width")) = false ->
     Num.isNaN (minWidth nodeSize) = false ->
     Num.le (minWidth nodeSize) width = true /\
     Num.le (currentSize (attrAt demoSvg [0; 1; 0] "width")) width = true) /\
    (Num.isNaN (currentSize (attrAt demoSvg [0; 1; 0] "height")) = false ->
     Num.isNaN (minHeight nodeSize) = false ->
     Num.le (minHeight nodeSize) height = true /\
     Num.le (currentSize (attrAt demoSvg [0; 1; 0] "height")) height = true).
Proof.
  apply (resizeGrouping_written_size [[0; 1; 0; 0]] [0; 1; 0; 0] [0; 1] [0; 1]
           [0; 1; 0] {| minWidth := 30%float; minHeight := 40%float |} demoSvg);
    reflexivity.
Defined.

(** ** Trees *)

Lemma node_nested_ind (P : node -> Prop) :
  (forall s, P (TextNode s)) ->
  (forall t a ch, Forall P ch -> P (Element t a ch)) ->
  forall n, P n.
Proof.
  intros Htext Helem. fix IH 1. intros [s|t a ch].
  - apply Htext.
  - apply Helem. induction ch as [|c ch IHch]; constructor.
    + apply IH.
    + exact IHch.
Qed.





Lemma map_alter_same {A B} (h : A -> B) (g : A -> A) (i : nat) (l : list A) :
  (forall x, h (g x) = h x) -> map h (alter g i l) = map h l.
Proof.
  intros H. revert i. induction l as [|x l IH]; intros [|i]; simpl;
    try reflexivity.
  - rewrite H. reflexivity.
  - f_equal. apply IH.
Qed.

(** An edit that keeps the skeleton of every node keeps the skeleton of the
    document. *)
Lemma skeleton_updateNode (p : list nat) (f : node -> node) (doc : node) :
  (forall n, skeleton (f n) = skeleton n) ->
  skeleton (updateNode p f doc) = skeleton doc.
Proof.
  intros Hf. revert doc. induction p as [|i p IH]; intros doc; [apply Hf|].
  destruct doc as [s|t a ch]; [reflexivity|]. simpl. f_equal.
  apply map_alter_same, IH.
Qed.

Lemma skeleton_withAttribute (a v : string) (n : node) :
  skeleton (withAttribute a v n) = skeleton n.
Proof. destruct n; reflexivity. Qed.

Lemma skeleton_setAttribute (p : list nat) (a v : string) (doc : node) :
  skeleton (setAttribute p a v doc) = skeleton doc.
Proof. apply skeleton_updateNode. intros n. apply skeleton_withAttribute. Qed.







(** ** Selecting *)

Lemma descendants_Element (t : string) (a : list (string * string)) (ch : list node) :
  descendants (Element t a ch) = descendantsFrom 0 ch.
Proof. reflexivity. Qed.

Lemma descendantsFrom_getNode (cs : list node) :
  Forall (fun c0 => forall r c, In (r, c) (descendants c0) -> getNode c0 r = Some c) cs ->
  forall i r c, In (r, c) (descendantsFrom i cs) ->
  exists k c0 r', cs !! k = Some c0 /\ r = (i + k) :: r' /\ getNode c0 r' = Some c.
Proof.
  induction 1 as [|c0 cs Hc0 _ IH]; intros i r c Hin; [destruct Hin|].
  simpl in Hin. destruct Hin as [Hin|Hin].
  - injection Hin as <- <-. exists 0, c0, []. rewrite Nat.add_0_r. auto.
  - apply in_app_or in Hin. destruct Hin as [Hin|Hin].
    + apply in_map_iff in Hin. destruct Hin as [[r' c'] [Heq Hin]].
      simpl in Heq. injection Heq as <- <-.
      exists 0, c0, r'. rewrite Nat.add_0_r. split; [reflexivity|].
      split; [reflexivity|]. apply Hc0, Hin.
    + destruct (IH _ _ _ Hin) as (k & c1 & r' & Hk & -> & Hget).
      exists (S k), c1, r'. split; [exact Hk|]. split; [f_equal; lia | exact Hget].
Qed.

(** Each descendant is the node at its path, and its path is not empty. *)
Lemma descendants_getNode (n : node) :
  forall r c, In (r, c) (descendants n) -> getNode n r = Some c /\ r <> [].
Proof.
  induction n as [s|t a ch IH] using node_nested_ind; intros r c Hin;
    [destruct Hin|].
  rewrite descendants_Element in Hin.
  assert (IH' : Forall (fun c0 => forall r c, In (r, c) (descendants c0) ->
                                  getNode c0 r = Some c) ch).
  { eapply Forall_impl; [exact IH|]. intros c0 H r0 c1 Hin0. apply H, Hin0. }
  destruct (descendantsFrom_getNode ch IH' 0 r c Hin) as (k & c0 & r' & Hk & -> & Hget).
  split; [|discriminate]. simpl. rewrite Hk. exact Hget.
Qed.

Lemma getNode_app (doc : node) (p r : list nat) :
  getNode doc (p ++ r) = getNode doc p ≫= fun n => getNode n r.
Proof.
  revert doc. induction p as [|i p IH]; intros doc; [reflexivity|].
  simpl. destruct (childNodes doc !! i) as [c|]; [apply IH | reflexivity].
Qed.

(** What [querySelectorAll] returns: elements strictly below the start that
    match the selector. *)
Lemma querySelectorAll_elem (doc : node) (p : list nat)
  (sel : list (list simpleSelector)) (q : list nat) :
  In q (querySelectorAll doc p sel) ->
  matchesAt doc sel q = true /\ strictlyBelow p q = true.
Proof.
  unfold querySelectorAll. destruct (getNode doc p) as [n|] eqn:Hp; [|intros []].
  intros Hin. apply in_map_iff in Hin. destruct Hin as [[r c] [<- Hin]].
  apply list_elem_of_In, list_elem_of_filter in Hin. destruct Hin as [Hm Hin].
  apply list_elem_of_In, descendants_getNode in Hin. destruct Hin as [Hget Hr].
  simpl in *. split.
  - unfold matchesAt. rewrite getNode_app, Hp. simpl. rewrite Hget. exact Hm.
  - clear -Hr. induction p as [|i p IH]; simpl.
    + destruct r; [congruence | reflexivity].
    + rewrite Nat.eqb_refl. exact IH.
Qed.

Lemma querySelector_elem (doc : node) (p : list nat)
  (sel : list (list simpleSelector)) (q : list nat) :
  querySelector doc p sel = Some q ->
  matchesAt doc sel q = true /\ strictlyBelow p q = true.
Proof.
  unfold querySelector. intros H. apply querySelectorAll_elem.
  apply head_Some in H. destruct H as [l' ->]. left. reflexivity.
Qed.

Lemma matchesAt_typeSelector (doc : node) (t : string) (q : list nat) :
  matchesAt doc (typeSelector t) q = true ->
  exists n, getNode doc q = Some n /\ isElement n = true /\ tagName n = t.
Proof.
  unfold matchesAt. destruct (getNode doc q) as [n|]; [|discriminate].
  intros H. exists n. split; [reflexivity|].
  destruct n as [s|t' a ch]; [discriminate|].
  unfold matchesSelector, typeSelector in H. simpl in H.
  rewrite orb_false_r, andb_true_r in H. apply String.eqb_eq in H. auto.
Qed.

(** ** [processDiagramSeriesModel] *)

Section ProcessFacts.

Context {platform : Platform}.



(** A metric name that makes the selector text invalid throws before any
    strategy is tried, whatever the document holds. *)
Lemma processDiagramSeriesModel_invalid_selector
  (container : list nat) (indicator : MetricIndicator) (options : DiagramOptions)
  (doc : node) :
  readDataId (metricName indicator) = InvalidSelector ->
  processDiagramSeriesModel container indicator options doc
  = Thrown {| errorName := "SyntaxError";
              message := selectorErrorMessage (dataIdSelectorText (metricName indicator)) |}
           doc.
Proof.
  intros H. unfold processDiagramSeriesModel, selectElementById. rewrite H.
  reflexivity.
Qed.

(** C10: when the container has no [svg] descendant, [updateDiagramStyle]
    returns at once and the document is the one it was given: no indicator
    is processed, no render tweak applied, no [style] element appended.  On
    the other path, every call that returns normally ends with the append
    of the [style] element to the container. *)
Theorem updateDiagramStyle_without_svg
  (el : list nat) (models : list DiagramSeriesModel) (options : DiagramOptions)
  (diagramId : string) (doc : node) :
  match querySelector doc el (typeSelector "svg") with
  | None => updateDiagramStyle el models options diagramId doc = Done doc
  | Some svg =>
      forall doc',
        updateDiagramStyle el models options diagramId doc = Done doc' ->
        exists painted,
          doc' = injectCustomStyle el (style options) diagramId painted
  end.
Proof.
  unfold updateDiagramStyle.
  destruct (querySelector doc el (typeSelector "svg")) as [svg|]; [|reflexivity].
  intros doc'.
  destruct (forEach _ (reduceModels models) _) as [doc3|e doc3|]; simpl;
    try discriminate.
  destruct (reduceComposites _ _) as [indicators' composed].
  destruct (forEach _ _ doc3) as [doc4|e doc4|]; simpl; try discriminate.
  intros [= <-]. exists doc4. reflexivity.
Qed.

End ProcessFacts.

(** A container that holds no diagram yet. *)
Example updateDiagramStyle_empty_container :
  updateDiagramStyle demoContainer [sampleSeries "cpu" []] (sampleOptions "" None)
    "diagram-1" (demoDocument [TextNode "loading"])
  = Done (demoDocument [TextNode "loading"]).
Proof. reflexivity. Qed.

(** What the append of the [style] element does to a container that is in
    the document. *)
Lemma injectCustomStyle_appends `{Platform}
  (el : list nat) (diagramStyle diagramId t : string)
  (a : list (string * string)) (ch : list node) (doc : node) :
  getNode doc el = Some (Element t a ch) ->
  getNode (injectCustomStyle el diagramStyle diagramId doc) el
  = Some (Element t a
            (ch ++ [Element "style" []
                      (if String.eqb (diagramStyleFormatter diagramStyle diagramId) ""
                       then []
                       else [TextNode (diagramStyleFormatter diagramStyle diagramId)])])).
Proof.
  intros Hel. unfold injectCustomStyle, d3_append, appendChild, setTextContent,
    setChildren. rewrite Hel. simpl.
  set (f := fun e => withChildren (childNodes e ++ [Element "style" [] []]) e).
  set (g := withChildren _).
  assert (Happ : forall p r doc0,
             getNode (updateNode (p ++ r) g doc0) p = updateNode r g <$> getNode doc0 p).
  { clear. induction p as [|i p IH]; intros r doc0; [reflexivity|].
    destruct doc0 as [s|t a ch]; [reflexivity|]. simpl.
    rewrite list_lookup_alter_eq. destruct (ch !! i); simpl; [apply IH|reflexivity]. }
  rewrite Happ, getNode_updateNode_same, Hel. simpl. f_equal. f_equal.
  replace (length ch) with (length ch + 0) by lia.
  rewrite alter_app_r. reflexivity.
Qed.

(** C7: a series whose name ends in a double quote ([quotedName]) and the
    diagram of the examples.  No
    element has that [data-id] and no [span], [div] or [text] has or holds
    that text, yet processing the indicator throws a [SyntaxError]: the
    name goes into the selector text unescaped and its quote ends the
    attribute value early.  In a pass of the controller the error reaches
    the [catch] block, which replaces the rendered diagram by the error
    markup. *)
Theorem quoted_metric_name_throws :
  let doc := demoDocument [demoSvg] in
  let svg := [0; 0] in
  let indicator := sampleIndicator quotedName 1%float in
  let options := sampleOptions "" None in
  querySelectorAll doc svg [[SelAttrEquals "data-id" quotedName]] = [] /\
  selectElementByEdgeLabel doc svg quotedName = [] /\
  selectDivElementByAlias doc svg quotedName = [] /\
  selectTextElementByAlias doc svg quotedName = [] /\
  selectTextElementContainingAlias doc svg quotedName = [] /\
  processDiagramSeriesModel svg indicator options doc
  = Thrown {| errorName := "SyntaxError";
              message := selectorErrorMessage (dataIdSelectorText quotedName) |} doc /\
  initializeMermaid (sampleProps "graph LR; cpu" None [sampleSeries quotedName []])
    (renderingServices Unmodelled) (Some demoContainer) (demoDocument [])
  = {| document :=
         demoDocument
           [Element "#fragment"
              [("markup",
                errorMarkup
                  {| errorName := "SyntaxError";
                     message := selectorErrorMessage (dataIdSelectorText quotedName) |})]
              []];
       renderCalls :=
         [("diagram-1",
           interpolatedOf (sampleProps "graph LR; cpu" None []) "graph LR; cpu")];
       promise := Normal tt |}.
Proof. vm_compute. repeat split. Qed.

(** ** Painting a shape *)

Section ShapeFacts.

Context {platform : Platform}.


Lemma skeleton_d3_style (a v : string) (p : list nat) (doc : node) :
  skeleton (d3_style a v p doc) = skeleton doc.
Proof.
  unfold d3_style. apply skeleton_updateNode. intros n. apply skeleton_withAttribute.
Qed.



Lemma resizeGrouping_skeleton (element : list (list nat)) (first : list nat)
  (nodeSize : NodeSizeOptions) (doc : node) :
  head element = Some first ->
  exists doc', resizeGrouping element nodeSize doc = Done doc'
               /\ skeleton doc' = skeleton doc.
Proof.
  intros H. unfold resizeGrouping. rewrite H.
  destruct (closest doc (typeSelector "g") first);
    destruct (closest doc labelGroupSelector first);
    destruct (closest doc (typeSelector "foreignObject") first);
    eexists; (split; [reflexivity|]); rewrite ?skeleton_setAttribute; reflexivity.
Qed.






End ShapeFacts.



(** A label of two lines: the text that goes into the markup is the rendered
    text, with its line break. *)
Example two_line_label_keeps_line_break :
  textAt twoLineSvg [0; 1; 0; 0] = "CPUload" /\
  exists doc',
    processDiagramSeriesModel [] cpuIndicator (sampleOptions "" None) twoLineSvg
    = Done doc' /\
    childrenAt doc' [0; 1; 0; 0]
    = Some (parseFragment "div"
              ("<div style=" ++ dquote ++ "margin:auto" ++ dquote ++ ">CPU"
               ++ newline ++ "load<br/> 42 %</div>")).
Proof.
  split; [reflexivity|]. eexists. split; vm_compute; reflexivity.
Qed.

(** * Further properties

    The functions of the module that the statements above do not reach, and
    more about those they do. *)

(** ** [reduceModels], again *)

Lemma find_first {A} (f : A -> bool) (l : list A) (x : A) :
  List.find f l = Some x <->
  exists k, l !! k = Some x /\ f x = true /\
            forall j y, j < k -> l !! j = Some y -> f y = false.
Proof.
  induction l as [|a l IH]; simpl.
  - split; [discriminate|]. intros (k & Hk & _). destruct k; discriminate.
  - destruct (f a) eqn:Ha.
    + split.
      * intros [= <-]. exists 0. split; [reflexivity|]. split; [exact Ha|]. lia.
      * intros (k & Hk & Hx & Hfirst). destruct k as [|k]; [exact Hk|].
        rewrite (Hfirst 0 a) in Ha by (simpl; auto with lia). discriminate.
    + rewrite IH. split.
      * intros (k & Hk & Hx & Hfirst). exists (S k). split; [exact Hk|].
        split; [exact Hx|]. intros [|j] y Hj Hy.
        -- injection Hy as <-. exact Ha.
        -- apply (Hfirst j); [lia | exact Hy].
      * intros (k & Hk & Hx & Hfirst). destruct k as [|k].
        -- injection Hk as ->. congruence.
        -- exists k. split; [exact Hk|]. split; [exact Hx|].
           intros j y Hj Hy. apply (Hfirst (S j)); [lia | exact Hy].
Qed.

Lemma titled_true (n : string) (dv : DisplayValue) :
  match title dv with Some t => String.eqb t n | None => false end = true
  <-> title dv = Some n.
Proof.
  destruct (title dv) as [t|]; [|split; discriminate].
  rewrite String.eqb_eq. split; congruence.
Qed.

Lemma findByTitle_first (m : DiagramSeriesModel) (cfg : CustomConfig) (dv : DisplayValue) :
  custom m = Some cfg ->
  findByTitle (customValueName cfg) (info m) = Some dv <-> firstOfTitle m dv.
Proof.
  intros Hc. unfold findByTitle, firstOfTitle. split.
  - destruct (info m) as [dvs|] eqn:Hi; [|discriminate].
    intros H. apply find_first in H. destruct H as (k & Hk & Hx & Hfirst).
    exists cfg, dvs, k. split; [exact Hc|]. split; [reflexivity|].
    split; [exact Hk|]. split; [apply titled_true, Hx|].
    intros j dv' Hj Hdv' Ht. apply titled_true in Ht.
    rewrite (Hfirst j dv' Hj Hdv') in Ht. discriminate.
  - intros (cfg' & dvs & k & Hc' & Hi & Hk & Ht & Hfirst).
    rewrite Hc in Hc'. injection Hc' as <-. rewrite Hi.
    apply find_first. exists k. split; [exact Hk|]. split; [apply titled_true, Ht|].
    intros j y Hj Hy.
    destruct (match title y with Some t => String.eqb t _ | None => false end) eqn:E;
      [|reflexivity].
    apply titled_true in E. destruct (Hfirst j y Hj Hy E).
Qed.

(** X1: [reduceModels] works series by series, in order, and a series gives
    at most one indicator: the one made of the display value that is, by
    position, the first whose title is the configured value name, named
    after the series' label; it gives none exactly when it has no
    configuration, no display values, or no display value of that title. *)
Theorem reduceModels_indicators :
  (forall a b, reduceModels (a ++ b) = reduceModels a ++ reduceModels b) /\
  (forall m, length (reduceModels [m]) <= 1) /\
  (forall m i,
     reduceModels [m] = [i] <-> exists dv, firstOfTitle m dv /\ i = indicatorOf m dv) /\
  (forall m, reduceModels [m] = [] <-> forall dv, ~ firstOfTitle m dv).
Proof.
  split; [|split; [|split]].
  - intros a b. unfold reduceModels. apply flat_map_app.
  - intros m. unfold reduceModels. simpl.
    destruct (custom m) as [cfg|]; [|simpl; lia].
    destruct (findByTitle _ _); simpl; lia.
  - intros m i. unfold reduceModels. simpl. rewrite app_nil_r.
    destruct (custom m) as [cfg|] eqn:Hc.
    + destruct (findByTitle (customValueName cfg) (info m)) as [dv|] eqn:Hf.
      * split.
        -- intros [= <-]. exists dv. split; [|reflexivity].
           apply (findByTitle_first m cfg dv Hc), Hf.
        -- intros (dv' & Hdv' & ->). apply (findByTitle_first m cfg dv' Hc) in Hdv'.
           rewrite Hf in Hdv'. injection Hdv' as <-. reflexivity.
      * split; [discriminate|]. intros (dv' & Hdv' & _).
        apply (findByTitle_first m cfg dv' Hc) in Hdv'. congruence.
    + split; [discriminate|]. intros (dv' & (cfg & _ & _ & Hc' & _) & _). congruence.
  - intros m. unfold reduceModels. simpl. rewrite app_nil_r.
    destruct (custom m) as [cfg|] eqn:Hc.
    + destruct (findByTitle (customValueName cfg) (info m)) as [dv|] eqn:Hf.
      * split; [discriminate|]. intros Hno. exfalso. apply (Hno dv).
        apply (findByTitle_first m cfg dv Hc), Hf.
      * split; [|reflexivity]. intros _ dv Hdv.
        apply (findByTitle_first m cfg dv Hc) in Hdv. congruence.
    + split; [|reflexivity]. intros _ dv (cfg & _ & _ & Hc' & _). congruence.
Qed.

(** Of two display values with the title the first is taken. *)
Example reduceModels_takes_first :
  let dv (n : string) :=
    {| text := n; numeric := 1%float; prefix := None; suffix := None;
       color := None; title := Some "last" |} in
  reduceModels
    [ {| label := "cpu"; custom := Some {| customValueName := "last" |};
         info := Some [dv "first"; dv "second"]; data := []; isVisible := true |} ]
  = [ {| displayValue := dv "first"; metricName := "cpu"; valueName := Some "last";
         isComposite := None; originalName := None |} ].
Proof. reflexivity. Qed.

(** X2: the indicators come in the order of the series, at most one per
    series. *)
Theorem reduceModels_in_order (models : list DiagramSeriesModel) :
  sublist (map (fun i : MetricIndicator => metricName i) (reduceModels models))
          (map label models).
Proof.
  induction models as [|m models IH]; [constructor|].
  unfold reduceModels. simpl. fold (reduceModels models).
  destruct (custom m) as [cfg|]; [|apply sublist_cons, IH].
  destruct (findByTitle (customValueName cfg) (info m)) as [dv|].
  - simpl. apply sublist_skip, IH.
  - simpl. apply sublist_cons, IH.
Qed.

(** ** [reduceComposites], again *)

Lemma filterByName_elem (m : string) (indicators : list MetricIndicator) :
  forall base j ind,
  In (j, ind) (filterByName m base indicators) <->
  base <= j /\ indicators !! (j - base) = Some ind /\ metricName ind = m.
Proof.
  induction indicators as [|i rest IH]; intros base j ind; simpl.
  - split; [tauto|]. intros (_ & H & _). discriminate.
  - assert (Hrest : In (j, ind) (filterByName m (S base) rest) <->
                    S base <= j /\ (i :: rest) !! (j - base) = Some ind /\ metricName ind = m).
    { rewrite IH. split.
      - intros (Hb & Hl & Hn). split; [exact Hb|]. split; [|exact Hn].
        replace (j - base) with (S (j - S base)) by lia. exact Hl.
      - intros (Hb & Hl & Hn). split; [exact Hb|]. split; [|exact Hn].
        replace (j - base) with (S (j - S base)) in Hl by lia. exact Hl. }
    destruct (String.eqb (metricName i) m) eqn:E.
    + apply String.eqb_eq in E. simpl. rewrite Hrest. split.
      * intros [H|H].
        -- injection H as <- <-. rewrite Nat.sub_diag. auto.
        -- destruct H as (Hb & Hl & Hn). split; [lia|]. auto.
      * intros (Hb & Hl & Hn). destruct (decide (j = base)) as [->|Hne].
        -- left. rewrite Nat.sub_diag in Hl. simpl in Hl. congruence.
        -- right. split; [lia|]. auto.
    + rewrite Hrest. split.
      * intros (Hb & Hl & Hn). split; [lia|]. auto.
      * intros (Hb & Hl & Hn). destruct (decide (j = base)) as [->|Hne].
        -- rewrite Nat.sub_diag in Hl. simpl in Hl. injection Hl as ->.
           apply String.eqb_neq in E. contradiction.
        -- split; [lia|]. auto.
Qed.

(** The candidates of a composite are the indicators of the store whose
    name is one of its members, each with its own reference. *)
Lemma candidatesOf_elem (indicators : list MetricIndicator) (c : CompositeMetric)
  (j : nat) (ind : MetricIndicator) :
  In (j, ind) (candidatesOf indicators c) <->
  indicators !! j = Some ind /\ In (metricName ind) (members c).
Proof.
  unfold candidatesOf. rewrite in_flat_map. split.
  - intros (m & Hm & Hin). apply filterByName_elem in Hin.
    destruct Hin as (_ & Hl & Hn). rewrite Nat.sub_0_r in Hl. subst m. auto.
  - intros (Hl & Hm). exists (metricName ind). split; [exact Hm|].
    apply filterByName_elem. rewrite Nat.sub_0_r. split; [lia|]. auto.
Qed.

Lemma compositeWinner_candidate (indicators : list MetricIndicator) (c : CompositeMetric)
  (w : nat * MetricIndicator) :
  compositeWinner indicators c = Some w -> In w (candidatesOf indicators c).
Proof.
  unfold compositeWinner.
  destruct (candidatesOf indicators c) as [|first rest]; [discriminate|].
  intros [= <-]. apply (reduce1_extremum (showLowestValue c) rest first).
Qed.

(** One composite writes to at most one object: the winner, a candidate,
    which it relabels. *)
Lemma reduceComposite_lookup (indicators indicators' : list MetricIndicator)
  (c : CompositeMetric) (r : option nat) :
  reduceComposite indicators c = (indicators', r) ->
  forall j,
    indicators' !! j = indicators !! j \/
    exists ind, r = Some j /\ indicators !! j = Some ind /\
                In (metricName ind) (members c) /\
                indicators' !! j = Some (tagComposite ind (name c)).
Proof.
  unfold reduceComposite.
  destruct (compositeWinner indicators c) as [[w ind]|] eqn:Hw.
  - intros [= <- <-] j. apply compositeWinner_candidate, candidatesOf_elem in Hw.
    destruct Hw as [Hl Hm]. simpl. destruct (decide (w = j)) as [->|Hne].
    + right. exists ind. repeat split; try assumption.
      apply list_lookup_insert_eq. eapply lookup_lt_Some, Hl.
    + left. apply list_lookup_insert_ne, Hne.
  - intros [= <- <-] j. left. reflexivity.
Qed.

Lemma reduceComposite_winner (indicators indicators' : list MetricIndicator)
  (c : CompositeMetric) (w : nat) :
  reduceComposite indicators c = (indicators', Some w) ->
  exists ind, indicators !! w = Some ind /\ In (metricName ind) (members c) /\
              indicators' = <[w := tagComposite ind (name c)]> indicators /\
              indicators' !! w = Some (tagComposite ind (name c)).
Proof.
  unfold reduceComposite.
  destruct (compositeWinner indicators c) as [[w' ind]|] eqn:Hw; [|discriminate].
  intros [= <- <-]. apply compositeWinner_candidate, candidatesOf_elem in Hw.
  destruct Hw as [Hl Hm]. exists ind. simpl. repeat split; try assumption.
  apply list_lookup_insert_eq. eapply lookup_lt_Some, Hl.
Qed.

Lemma reduceComposite_keeps_values (indicators indicators' : list MetricIndicator)
  (c : CompositeMetric) (r : option nat) :
  reduceComposite indicators c = (indicators', r) ->
  map displayValue indicators' = map displayValue indicators.
Proof.
  intros H. apply list_eq. intros j.
  change (map displayValue indicators') with (displayValue <$> indicators').
  change (map displayValue indicators) with (displayValue <$> indicators).
  rewrite !list_lookup_fmap.
  destruct (reduceComposite_lookup _ _ _ _ H j) as [->|(ind & _ & Hl & _ & ->)];
    [reflexivity|]. rewrite Hl. reflexivity.
Qed.

(** X3: the composite reduction never touches a display value: text, numeric
    value, prefix, suffix, color and title of every indicator are what they
    were, in the same places, and there is at most one result per
    composite. *)
Theorem reduceComposites_keeps_values (indicators : list MetricIndicator)
  (composites : list CompositeMetric) :
  map displayValue (fst (reduceComposites indicators composites))
  = map displayValue indicators /\
  length (fst (reduceComposites indicators composites)) = length indicators /\
  length (snd (reduceComposites indicators composites)) <= length composites.
Proof.
  revert indicators. induction composites as [|c cs IH]; intros indicators.
  - simpl. auto.
  - simpl. destruct (reduceComposite indicators c) as [indicators1 r] eqn:H1.
    destruct (IH indicators1) as (Hv & Hl & Hn).
    destruct (reduceComposites indicators1 cs) as [indicators2 rs]. simpl in *.
    pose proof (reduceComposite_keeps_values _ _ _ _ H1) as Hv1.
    split; [congruence|]. split.
    + rewrite Hl. rewrite <- (length_map displayValue indicators1), Hv1.
      apply length_map.
    + destruct r; simpl; lia.
Qed.

Lemma tagged_step (known : list CompositeMetric)
  (indicators indicators' : list MetricIndicator) (c : CompositeMetric)
  (r : option nat) (j : nat) (ind : MetricIndicator) :
  reduceComposite indicators c = (indicators', r) -> In c known ->
  indicators !! j = Some ind -> tagged known ind ->
  exists ind', indicators' !! j = Some ind' /\ tagged known ind'.
Proof.
  intros H Hc Hl Ht.
  destruct (reduceComposite_lookup _ _ _ _ H j) as [->|(ind0 & _ & Hl0 & _ & ->)].
  - exists ind. auto.
  - eexists. split; [reflexivity|]. unfold tagged. simpl.
    split; [reflexivity|]. split; [exists c; auto | eauto].
Qed.

Lemma tagged_run (known : list CompositeMetric) (composites : list CompositeMetric) :
  forall indicators indicators' refs j ind,
  reduceComposites indicators composites = (indicators', refs) ->
  incl composites known ->
  indicators !! j = Some ind -> tagged known ind ->
  exists ind', indicators' !! j = Some ind' /\ tagged known ind'.
Proof.
  induction composites as [|c cs IH]; intros indicators indicators' refs j ind H Hincl Hl Ht.
  - simpl in H. injection H as <- <-. eauto.
  - simpl in H. destruct (reduceComposite indicators c) as [indicators1 r] eqn:H1.
    destruct (reduceComposites indicators1 cs) as [indicators2 rs] eqn:H2.
    injection H as <- <-.
    destruct (tagged_step known _ _ _ _ j ind H1 (Hincl c (or_introl eq_refl)) Hl Ht)
      as (ind1 & Hl1 & Ht1).
    eapply IH; eauto. intros x Hx. apply Hincl. right. exact Hx.
Qed.

Lemma reduceComposites_refs_tagged (known : list CompositeMetric)
  (composites : list CompositeMetric) :
  forall indicators indicators' refs,
  reduceComposites indicators composites = (indicators', refs) ->
  incl composites known ->
  forall r, In r refs ->
  exists ind, indicators' !! r = Some ind /\ tagged known ind.
Proof.
  induction composites as [|c cs IH]; intros indicators indicators' refs H Hincl r Hr.
  - simpl in H. injection H as <- <-. destruct Hr.
  - simpl in H. destruct (reduceComposite indicators c) as [indicators1 ro] eqn:H1.
    destruct (reduceComposites indicators1 cs) as [indicators2 rs] eqn:H2.
    injection H as <- <-.
    assert (Hincl' : incl cs known) by (intros x Hx; apply Hincl; right; exact Hx).
    assert (Hrs : In r rs -> exists ind, indicators2 !! r = Some ind /\ tagged known ind).
    { intros Hin. eapply IH; eauto. }
    destruct ro as [w|]; [|auto]. destruct Hr as [<-|Hr]; [|auto].
    destruct (reduceComposite_winner _ _ _ _ H1) as (ind0 & _ & _ & _ & Hw).
    eapply tagged_run; eauto. unfold tagged. simpl.
    split; [reflexivity|]. split; [|eauto].
    exists c. split; [apply Hincl; left|]; reflexivity.
Qed.

(** X4: every reference the composite reduction returns denotes, in the store
    it leaves, an indicator that is tagged composite, carries the name of one
    of the composites and records an original name. *)
Theorem reduceComposites_returns_tagged (indicators : list MetricIndicator)
  (composites : list CompositeMetric) (r : nat) :
  In r (snd (reduceComposites indicators composites)) ->
  exists ind,
    fst (reduceComposites indicators composites) !! r = Some ind /\
    isComposite ind = Some true /\
    (exists c, In c composites /\ metricName ind = name c) /\
    is_Some (originalName ind).
Proof.
  destruct (reduceComposites indicators composites) as [indicators' refs] eqn:H.
  simpl. intros Hr.
  destruct (reduceComposites_refs_tagged composites composites _ _ _ H
              (fun x Hx => Hx) r Hr) as (ind & Hl & Ht).
  exists ind. split; [exact Hl | exact Ht].
Qed.

(** X5: an indicator whose name is a member of no composite is left as it is
    and is never returned. *)
Theorem reduceComposites_frame (composites : list CompositeMetric) :
  forall (indicators : list MetricIndicator) (j : nat) (ind : MetricIndicator),
  indicators !! j = Some ind ->
  (forall c, In c composites -> ~ In (metricName ind) (members c)) ->
  fst (reduceComposites indicators composites) !! j = Some ind /\
  ~ In j (snd (reduceComposites indicators composites)).
Proof.
  induction composites as [|c cs IH]; intros indicators j ind Hl Hno.
  - simpl. auto.
  - simpl. destruct (reduceComposite indicators c) as [indicators1 ro] eqn:H1.
    assert (Hl1 : indicators1 !! j = Some ind).
    { destruct (reduceComposite_lookup _ _ _ _ H1 j) as [->|(ind0 & _ & Hl0 & Hm & _)];
        [exact Hl|].
      exfalso. apply (Hno c (or_introl eq_refl)). congruence. }
    destruct (IH indicators1 j ind Hl1) as [Hk Hn].
    { intros c' Hc'. apply Hno. right. exact Hc'. }
    destruct (reduceComposites indicators1 cs) as [indicators2 rs]. simpl in *.
    split; [exact Hk|]. destruct ro as [w|]; [|exact Hn].
    intros [->|Hin]; [|contradiction].
    destruct (reduceComposite_winner _ _ _ _ H1) as (ind0 & Hl0 & Hm & _).
    apply (Hno c (or_introl eq_refl)). congruence.
Qed.

(** X6: once a composite has taken an indicator, the indicator answers to the
    composite's name only: it is a candidate of another composite exactly
    when that composite lists the first one's name as a member. *)
Theorem reduceComposite_captures (indicators indicators' : list MetricIndicator)
  (c : CompositeMetric) (w : nat) :
  reduceComposite indicators c = (indicators', Some w) ->
  exists ind,
    indicators !! w = Some ind /\
    forall (c2 : CompositeMetric) (x : MetricIndicator),
      In (w, x) (candidatesOf indicators' c2) <->
      x = tagComposite ind (name c) /\ In (name c) (members c2).
Proof.
  intros H. destruct (reduceComposite_winner _ _ _ _ H) as (ind & Hl & _ & _ & Hw).
  exists ind. split; [exact Hl|]. intros c2 x. rewrite candidatesOf_elem, Hw. split.
  - intros [[= <-] Hm]. auto.
  - intros [-> Hm]. auto.
Qed.


(** ** The directive pattern and [contentProcessor], again *)

Lemma stripPrefix_Some (p s r : string) :
  stripPrefix p s = Some r <-> s = (p ++ r)%string.
Proof.
  revert s. induction p as [|a p IH]; intros s; simpl.
  - split; congruence.
  - destruct s as [|b s]; [split; discriminate|].
    destruct (Ascii.eqb_spec a b) as [->|Hab].
    + rewrite IH. split; congruence.
    + split; [discriminate | congruence].
Qed.

Lemma append_assoc (a b c : string) : ((a ++ b) ++ c = a ++ b ++ c)%string.
Proof. induction a as [|x a IH]; simpl; [reflexivity | rewrite IH; reflexivity]. Qed.

Lemma occursIn_iff (sub s : string) :
  occursIn sub s = true <-> exists a c, s = (a ++ sub ++ c)%string.
Proof.
  split.
  - induction s as [|x s IH]; rewrite occursIn_unfold;
      destruct (stripPrefix sub _) as [r|] eqn:E.
    + intros _. apply stripPrefix_Some in E. exists "", r. exact E.
    + discriminate.
    + intros _. apply stripPrefix_Some in E. exists "", r. exact E.
    + intros H. destruct (IH H) as (a & c & ->). exists (String x a), c. reflexivity.
  - intros (a & c & ->). apply includes_app_r, includes_here.
Qed.

Lemma hasInitDirective_unfold (s : string) :
  hasInitDirective s
  = initDirectiveAt s
    || match s with
       | EmptyString => false
       | String _ s' => hasInitDirective s'
       end.
Proof. destruct s; reflexivity. Qed.

Lemma initDirectiveAt_iff (s : string) :
  initDirectiveAt s = true <-> exists b c, s = ("%%{" ++ b ++ "}%%" ++ c)%string.
Proof.
  unfold initDirectiveAt. split.
  - destruct (stripPrefix "%%{" s) as [r|] eqn:E; [|discriminate].
    apply stripPrefix_Some in E. intros H. apply occursIn_iff in H.
    destruct H as (b & c & ->). exists b, c. exact E.
  - intros (b & c & ->).
    rewrite (proj2 (stripPrefix_Some "%%{" _ (b ++ "}%%" ++ c)) eq_refl).
    apply occursIn_iff. eauto.
Qed.

Lemma hasInitDirective_intro (a b c : string) :
  hasInitDirective (a ++ "%%{" ++ b ++ "}%%" ++ c) = true.
Proof.
  induction a as [|x a IH].
  - rewrite hasInitDirective_unfold. apply orb_true_iff. left.
    apply initDirectiveAt_iff. eauto.
  - change (String x a ++ "%%{" ++ b ++ "}%%" ++ c)%string
      with (String x (a ++ "%%{" ++ b ++ "}%%" ++ c)).
    rewrite hasInitDirective_unfold, IH. apply orb_true_r.
Qed.

(** X7: the pattern finds a directive exactly in the texts that hold the
    opening marker and, somewhere after it, the closing marker: anywhere in
    the text, whatever stands between and around them. *)
Theorem hasInitDirective_iff (s : string) :
  hasInitDirective s = true <->
  exists a b c, s = (a ++ "%%{" ++ b ++ "}%%" ++ c)%string.
Proof.
  split.
  - induction s as [|x s IH]; rewrite hasInitDirective_unfold;
      intros H; apply orb_true_iff in H; destruct H as [H|H].
    + discriminate.
    + discriminate.
    + apply initDirectiveAt_iff in H. destruct H as (b & c & ->). exists "", b, c.
      reflexivity.
    + destruct (IH H) as (a & b & c & ->). exists (String x a), b, c. reflexivity.
  - intros (a & b & c & ->). apply hasInitDirective_intro.
Qed.

Lemma directive_shape (base json definition : string) :
  (("%%{init: {'theme': '" ++ base ++ "', 'themeVariables': " ++ json
    ++ "}}%%" ++ newline) ++ definition
   = "" ++ "%%{" ++ ("init: {'theme': '" ++ base ++ "', 'themeVariables': " ++ json
                      ++ "}") ++ "}%%" ++ newline ++ definition)%string.
Proof.
  change ("%%{init: {'theme': '" ++ base ++ "', 'themeVariables': " ++ json
          ++ "}}%%" ++ newline)%string
    with ("%%{init: {'theme': '"
          ++ (base ++ "', 'themeVariables': " ++ json ++ "}}%%" ++ newline))%string.
  rewrite (append_assoc "%%{init: {'theme': '").
  rewrite (append_assoc base).
  rewrite (append_assoc "', 'themeVariables': ").
  rewrite (append_assoc json).
  rewrite (append_assoc "init: {'theme': '").
  rewrite (append_assoc base).
  rewrite (append_assoc "', 'themeVariables': ").
  rewrite (append_assoc json).
  reflexivity.
Qed.

Section DirectiveFacts.
Context {platform : Platform}.

(** X8: what [contentProcessor] returns always holds a directive and always
    ends with the whole definition; nothing is put in front of a definition
    that has a directive of its own, and processing twice is processing
    once. *)
Theorem contentProcessor_idempotent (dark : bool) (o : DiagramOptions) (definition : string) :
  hasInitDirective (contentProcessor dark o definition) = true /\
  (exists injected,
     contentProcessor dark o definition = (injected ++ definition)%string /\
     (hasInitDirective definition = true -> injected = "")) /\
  contentProcessor dark o (contentProcessor dark o definition)
  = contentProcessor dark o definition.
Proof.
  assert (H1 : hasInitDirective (contentProcessor dark o definition) = true).
  { unfold contentProcessor.
    destruct (hasInitDirective definition) eqn:E; [exact E|].
    rewrite directive_shape. apply hasInitDirective_intro. }
  split; [exact H1|]. split.
  - unfold contentProcessor. destruct (hasInitDirective definition).
    + exists "". auto.
    + eexists. split; [reflexivity | discriminate].
  - apply contentProcessor_directive, H1.
Qed.

End DirectiveFacts.

(** ** Theme variables *)

Lemma lookupAttr_app (k : string) (o1 o2 : list (string * string)) :
  lookupAttr k (o1 ++ o2) = orElse (lookupAttr k o1) (lookupAttr k o2).
Proof.
  induction o1 as [|[k' v'] o1 IH]; simpl; [reflexivity|].
  destruct (String.eqb k' k); [reflexivity | exact IH].
Qed.

Lemma lookupAttr_storeAttr (k k' v' : string) (o : list (string * string)) :
  lookupAttr k (storeAttr k' v' o)
  = if String.eqb k' k then Some v' else lookupAttr k o.
Proof.
  destruct (String.eqb_spec k' k) as [->|Hne].
  - apply lookupAttr_storeAttr_same.
  - apply lookupAttr_storeAttr_other. congruence.
Qed.

(** In [{...target, ...source}] a key of the source has the value the
    source gives it, any other key the value of the target. *)
Lemma spread_lookup (k : string) (source : list (string * string)) :
  forall target,
  lookupAttr k (spread target source)
  = orElse (lastBinding k source) (lookupAttr k target).
Proof.
  unfold spread, lastBinding.
  induction source as [|[k' v'] source IH]; intros target; [reflexivity|].
  simpl. rewrite IH, lookupAttr_app, lookupAttr_storeAttr. simpl.
  destruct (lookupAttr k (rev source)); simpl; [reflexivity|].
  destruct (String.eqb k' k); reflexivity.
Qed.

(** X9: the merged overrides give a theme variable the value of the most
    specific palette that sets it, in the precedence user journey, state,
    sequence, flowchart, class, common. *)
Theorem mergedOverrides_precedence (v : ThemeVariables) (k : string) :
  lookupAttr k (mergedOverrides v)
  = orElse (lastBinding k (userJourneyDiagram v))
      (orElse (lastBinding k (stateDiagram v))
         (orElse (lastBinding k (sequenceDiagram v))
            (orElse (lastBinding k (flowChart v))
               (orElse (lastBinding k (classDiagram v))
                  (lastBinding k (common v)))))).
Proof.
  unfold mergedOverrides. rewrite !spread_lookup. simpl.
  destruct (lastBinding k (common v)); reflexivity.
Qed.


(** ** A pass of the controller, again *)

Section PassFacts2.

Context {platform : Platform}.

(** X11: when the first attempt (the render call, setting the markup and the
    binding function) goes through, the renderer is called once only, also
    when styling the diagram throws afterwards: the styling error is caught,
    the container's content becomes the error markup over what the styling
    left, and the promise resolves. *)
Theorem styling_error_is_caught
  (props : DiagramPanelControllerProps) (services : Services)
  (current : list nat) (doc rendered : node) (definition : string) :
  loadDiagramDefinition props services = Normal definition ->
  renderInto services 0 (diagramIdOf props) (interpolatedOf props definition)
    current doc = Done rendered ->
  let pass := initializeMermaid props services (Some current) doc in
  let styling := updateDiagramStyle current (seriesData props) (options props)
                   (diagramIdOf props) rendered in
  renderCalls pass = [(diagramIdOf props, interpolatedOf props definition)] /\
  (forall styled, styling = Done styled ->
     document pass = styled /\ promise pass = Normal tt) /\
  (forall err partly, styling = Thrown err partly ->
     document pass = setInnerHTML (errorMarkup err) current partly /\
     promise pass = Normal tt).
Proof.
  intros Hload Hp. cbv zeta. unfold initializeMermaid. rewrite Hload.
  fold (diagramIdOf props). fold (interpolatedOf props definition).
  rewrite Hp. simpl.
  destruct (updateDiagramStyle current _ _ _ rendered) as [d|e d|]; simpl;
    (split; [reflexivity|]); split.
  - intros styled [= <-]. auto.
  - discriminate.
  - discriminate.
  - intros err partly [= <- <-]. auto.
  - discriminate.
  - discriminate.
Qed.

(** X12: the renderer is called a second time exactly when the first attempt
    throws, be it the render call or the binding function that came with
    its result; the second call gets the definition as loaded. *)
Theorem second_render_iff_first_attempt_throws
  (props : DiagramPanelControllerProps) (services : Services)
  (current : list nat) (doc : node) (definition : string) :
  loadDiagramDefinition props services = Normal definition ->
  let pass := initializeMermaid props services (Some current) doc in
  let first := renderInto services 0 (diagramIdOf props)
                 (interpolatedOf props definition) current doc in
  ((exists e d, first = Thrown e d) ->
   renderCalls pass = [(diagramIdOf props, interpolatedOf props definition);
                       (diagramIdOf props, definition)]) /\
  ((forall e d, first <> Thrown e d) ->
   renderCalls pass = [(diagramIdOf props, interpolatedOf props definition)]) /\
  (forall result bind e d,
     render services 0 (diagramIdOf props) (interpolatedOf props definition)
     = Normal result ->
     bindFunctions result = Some bind ->
     bind current (setInnerHTML (svg result) current doc) = Thrown e d ->
     first = Thrown e d).
Proof.
  intros Hload. cbv zeta. unfold initializeMermaid. rewrite Hload.
  fold (diagramIdOf props). fold (interpolatedOf props definition).
  split; [|split].
  - intros (e & d & ->). destruct (andThen _ _); reflexivity.
  - intros Hno.
    destruct (renderInto services 0 _ _ current doc) as [d|e d|] eqn:E.
    + simpl. destruct (updateDiagramStyle _ _ _ _ d); reflexivity.
    + destruct (Hno e d eq_refl).
    + reflexivity.
  - intros result bind e d Hr Hb Hbind. unfold renderInto. rewrite Hr, Hb. exact Hbind.
Qed.

End PassFacts2.

Lemma styling_error_is_caught_witness :
  let props := sampleProps "graph LR; cpu" None [sampleSeries quotedName []] in
  let pass := initializeMermaid props (renderingServices Unmodelled)
                (Some demoContainer) (demoDocument []) in
  let styling := updateDiagramStyle demoContainer (seriesData props) (options props)
                   (diagramIdOf props) (demoDocument [demoSvg]) in
  renderCalls pass = [(diagramIdOf props, interpolatedOf props "graph LR; cpu")] /\
  (forall styled, styling = Done styled ->
     document pass = styled /\ promise pass = Normal tt) /\
  (forall err partly, styling = Thrown err partly ->
     document pass = setInnerHTML (errorMarkup err) demoContainer partly /\
     promise pass = Normal tt).
Proof.
  apply (styling_error_is_caught
           (sampleProps "graph LR; cpu" None [sampleSeries quotedName []])
           (renderingServices Unmodelled) demoContainer (demoDocument [])
           (demoDocument [demoSvg]) "graph LR; cpu"); reflexivity.
Defined.

Lemma second_render_iff_first_attempt_throws_witness :
  let props := sampleProps "graph LR; cpu" None [] in
  let pass := initializeMermaid props bindFailingServices (Some demoContainer)
                (demoDocument []) in
  let first := renderInto bindFailingServices 0 (diagramIdOf props)
                 (interpolatedOf props "graph LR; cpu") demoContainer
                 (demoDocument []) in
  ((exists e d, first = Thrown e d) ->
   renderCalls pass = [(diagramIdOf props, interpolatedOf props "graph LR; cpu");
                       (diagramIdOf props, "graph LR; cpu")]) /\
  ((forall e d, first <> Thrown e d) ->
   renderCalls pass = [(diagramIdOf props, interpolatedOf props "graph LR; cpu")]) /\
  (forall result bind e d,
     render bindFailingServices 0 (diagramIdOf props)
       (interpolatedOf props "graph LR; cpu")
     = Normal result ->
     bindFunctions result = Some bind ->
     bind demoContainer (setInnerHTML (svg result) demoContainer (demoDocument []))
     = Thrown e d ->
     first = Thrown e d).
Proof.
  apply (second_render_iff_first_attempt_throws
           (sampleProps "graph LR; cpu" None []) bindFailingServices
           demoContainer (demoDocument []) "graph LR; cpu").
  reflexivity.
Defined.

(** A binding function that throws: the renderer is called again. *)
Example bind_failure_falls_back :
  renderCalls
    (initializeMermaid (sampleProps "graph LR; cpu" None []) bindFailingServices
       (Some demoContainer) (demoDocument []))
  = [("diagram-1", interpolatedOf (sampleProps "graph LR; cpu" None []) "graph LR; cpu");
     ("diagram-1", "graph LR; cpu")].
Proof. vm_compute. reflexivity. Qed.

(** ** The legend, again *)

Section LegendFacts.

Context {platform : Platform}.

(** X13: the hide rule in full.  A series is hidden exactly when [hideEmpty]
    is set and one of its values is null, or [hideZero] is set and its
    values, null and NaN read as 0, sum to 0. *)
Theorem shouldHideLegendItem_iff
  (rows : list (DiagramSeriesValue * DiagramSeriesValue)) (hideEmpty hideZero : bool) :
  shouldHideLegendItem rows hideEmpty hideZero = true <->
  (hideEmpty = true /\ exists row, In row rows /\ snd row = None) \/
  (hideZero = true /\ Num.strictEq (seriesSum rows) 0%float = true).
Proof.
  rewrite shouldHideLegendItem_computes, orb_true_iff, !andb_true_iff, existsb_exists.
  split; (intros [[H1 H2]|H]; [left | right; exact H]); (split; [exact H1|]);
    destruct H2 as (row & Hin & Hrow); exists row; (split; [exact Hin|]).
  - destruct (snd row); [discriminate | reflexivity].
  - rewrite Hrow. reflexivity.
Qed.

Lemma seriesSum_falsy (rows : list (DiagramSeriesValue * DiagramSeriesValue)) :
  (forall row, In row rows -> falsyValue (snd row)) ->
  seriesSum rows = 0%float.
Proof.
  unfold seriesSum. induction rows as [|r rows IH]; intros H; [reflexivity|].
  simpl. assert (Hr : valueOr0 (snd r) = 0%float).
  { specialize (H r (or_introl eq_refl)). unfold valueOr0.
    destruct (snd r) as [x|]; [|reflexivity]. simpl in H. rewrite H. reflexivity. }
  rewrite Hr. change (0 + 0)%float with 0%float. apply IH.
  intros row Hin. apply H. right. exact Hin.
Qed.

(** X14: under [hideZero] a series is hidden when each of its values is null,
    0, -0 or NaN; so is a series without values. *)
Theorem hideZero_hides_falsy_series
  (rows : list (DiagramSeriesValue * DiagramSeriesValue)) (hideEmpty : bool) :
  (forall row, In row rows -> falsyValue (snd row)) ->
  shouldHideLegendItem rows hideEmpty true = true.
Proof.
  intros H. rewrite shouldHideLegendItem_computes, (seriesSum_falsy rows H).
  apply orb_true_r.
Qed.

Lemma getLegendItems_fold (l : LegendOptions) (series : list DiagramSeriesModel) :
  forall acc,
  fold_left
    (fun acc s =>
       if shouldHideLegendItem (data s) (hideEmpty l) (hideZero l)
       then acc
       else acc ++ [ {| legendLabel := label s; legendColor := "";
                        disabled := negb (isVisible s); yAxis := 0;
                        getDisplayValues := default [] (info s) |} ])
    series acc
  = acc ++ map legendItemOf (List.filter (keptInLegend l) series).
Proof.
  induction series as [|s series IH]; intros acc; simpl.
  - rewrite app_nil_r. reflexivity.
  - rewrite IH. unfold keptInLegend at 2.
    destruct (shouldHideLegendItem _ _ _); simpl; [reflexivity|].
    rewrite <- app_assoc. reflexivity.
Qed.

(** X15: the legend has one item for each series the hide rule keeps, in the
    order of the series: labelled with the series' label, disabled when the
    series is not visible, with the series' display values, or none when it
    has no [info].  With both flags off every series has its item. *)
Theorem getLegendItems_filter (props : DiagramPanelControllerProps) :
  getLegendItems props
  = map legendItemOf
      (List.filter (keptInLegend (legend (options props))) (seriesData props)) /\
  (hideEmpty (legend (options props)) = false ->
   hideZero (legend (options props)) = false ->
   getLegendItems props = map legendItemOf (seriesData props)).
Proof.
  assert (H : getLegendItems props
              = map legendItemOf
                  (List.filter (keptInLegend (legend (options props)))
                     (seriesData props))).
  { unfold getLegendItems. rewrite getLegendItems_fold. reflexivity. }
  split; [exact H|]. intros He Hz. rewrite H.
  replace (List.filter (keptInLegend (legend (options props))) (seriesData props))
    with (seriesData props); [reflexivity|].
  clear H. induction (seriesData props) as [|s series IH]; [reflexivity|].
  simpl. unfold keptInLegend at 1. rewrite He, Hz.
  unfold shouldHideLegendItem. simpl. rewrite <- IH. reflexivity.
Qed.

End LegendFacts.

Lemma hideZero_hides_falsy_series_witness :
  shouldHideLegendItem
    [(Some 1%float, None); (Some 2%float, Some PrimFloat.nan);
     (Some 3%float, Some PrimFloat.neg_zero)] false true = true.
Proof.
  apply (hideZero_hides_falsy_series
           [(Some 1%float, None); (Some 2%float, Some PrimFloat.nan);
            (Some 3%float, Some PrimFloat.neg_zero)] false).
  intros row [<-|[<-|[<-|[]]]]; simpl; reflexivity.
Defined.

(** Values that cancel out are hidden under [hideZero] as well. *)
Example hideZero_hides_cancelling_series :
  shouldHideLegendItem [(Some 1%float, Some 5%float); (Some 2%float, Some (-5)%float)]
    false true = true.
Proof. reflexivity. Qed.

(** ** [onToggleSort] *)

(** X16: sorting by a column other than the current one, or when no column
    is set, sorts ascending; sorting by the current column flips the
    direction, a missing direction counting as ascending.  So a second
    toggle of a column reverses what the first left, and a third gives the
    settings of the first. *)
Theorem onToggleSort_toggles (current : LegendSort) (column : string) :
  sortBy (onToggleSort current column) = Some column /\
  (sortBy current <> Some column ->
   sortDesc (onToggleSort current column) = Some false) /\
  (sortBy current = Some column ->
   sortDesc (onToggleSort current column) = Some (notDesc (sortDesc current))) /\
  (forall d, sortDesc (onToggleSort current column) = Some d ->
     sortDesc (onToggleSort (onToggleSort current column) column) = Some (negb d)) /\
  onToggleSort (onToggleSort (onToggleSort current column) column) column
  = onToggleSort current column.
Proof.
  split; [reflexivity|]. split; [|split; [|split]].
  - intros Hne. unfold onToggleSort, sameColumn. simpl.
    destruct (sortBy current) as [c|]; [|reflexivity].
    destruct (String.eqb_spec column c) as [->|]; [congruence | reflexivity].
  - intros Hs. unfold onToggleSort, sameColumn. simpl.
    rewrite Hs, String.eqb_refl. reflexivity.
  - intros d Hd. unfold onToggleSort, sameColumn in *. simpl in *.
    rewrite String.eqb_refl. injection Hd as <-. reflexivity.
  - unfold onToggleSort, sameColumn. simpl. rewrite String.eqb_refl. simpl.
    rewrite negb_involutive. reflexivity.
Qed.


(** ** Locating, again *)

Lemma strictlyBelow_app (p q : list nat) :
  strictlyBelow p q = true -> exists r, q = p ++ r /\ r <> [].
Proof.
  revert q. induction p as [|i p IH]; intros [|j q] H; try discriminate.
  - exists (j :: q). split; [reflexivity | discriminate].
  - simpl in H. apply andb_true_iff in H. destruct H as [Hij H].
    apply Nat.eqb_eq in Hij. subst j.
    destruct (IH q H) as (r & -> & Hr). exists r. split; [reflexivity | exact Hr].
Qed.

Lemma strictlyBelow_take (k : nat) (q : list nat) :
  take k q = q \/ strictlyBelow (take k q) q = true.
Proof.
  revert k. induction q as [|j q IH]; intros [|k]; simpl; auto.
  destruct (IH k) as [->|H]; [left; reflexivity|].
  right. rewrite Nat.eqb_refl. exact H.
Qed.

Lemma closest_atOrAbove (doc : node) (sel : list (list simpleSelector)) (p q : list nat) :
  closest doc sel q = Some p -> atOrAbove p q.
Proof.
  unfold closest, selfAndAncestors. intros H. apply find_some in H.
  destruct H as [H _]. apply in_map_iff in H. destruct H as (k & <- & _).
  apply strictlyBelow_take.
Qed.

Lemma matchesAt_attr (doc : node) (a v : string) (q : list nat) :
  matchesAt doc [[SelAttrEquals a v]] q = true -> attrAt doc q a = Some v.
Proof.
  unfold matchesAt, attrAt. destruct (getNode doc q) as [n|]; [|discriminate].
  destruct n as [s|t attrs ch]; [discriminate|].
  unfold matchesSelector, matchesSimple. cbn [isElement existsb forallb andb orb].
  rewrite orb_false_r, andb_true_r.
  destruct (getAttribute a (Element t attrs ch)) as [w|]; [|discriminate].
  intros H. apply String.eqb_eq in H. congruence.
Qed.

Lemma tagAt_typeSelector (doc : node) (t : string) (q : list nat) :
  matchesAt doc (typeSelector t) q = true -> tagAt doc q = Some t.
Proof.
  intros H. apply matchesAt_typeSelector in H. destruct H as (n & Hn & _ & <-).
  unfold tagAt. rewrite Hn. reflexivity.
Qed.

Lemma filtered_elem (P : list nat -> Prop) `{!forall p, Decision (P p)}
  (doc : node) (container : list nat) (t : string) (p : list nat) :
  In p (filter P (querySelectorAll doc container (typeSelector t))) ->
  strictlyBelow container p = true /\ tagAt doc p = Some t /\ P p.
Proof.
  intros Hin. apply list_elem_of_In, list_elem_of_filter in Hin.
  destruct Hin as [HP Hin].
  apply list_elem_of_In, querySelectorAll_elem in Hin. destruct Hin as [Hm Hb].
  split; [exact Hb|]. split; [apply tagAt_typeSelector, Hm | exact HP].
Qed.

Section LocateFacts.

Context {platform : Platform}.

(** X17: what the five lookups return.  The lookup by id returns at most one
    element, below the container, whose [data-id] is the key.  The lookups
    by text return [span] ([text]) elements below the container whose text
    is (holds) the key.  The lookup by alias returns at most one element,
    of class [node], that is or lies above a [div] below the container whose
    text is the key; the element itself need not lie below the
    container. *)
Theorem lookups_sound (doc : node) (container : list nat) (key : string) :
  (forall sel p,
     selectElementById doc container key = Normal sel -> In p sel ->
     sel = [p] /\ strictlyBelow container p = true /\
     attrAt doc p "data-id" = Some key) /\
  (forall p,
     In p (selectElementByEdgeLabel doc container key) ->
     strictlyBelow container p = true /\ tagAt doc p = Some "span" /\
     textAt doc p = key) /\
  (forall p,
     In p (selectDivElementByAlias doc container key) ->
     selectDivElementByAlias doc container key = [p] /\
     matchesAt doc nodeClassSelector p = true /\
     exists d, atOrAbove p d /\ strictlyBelow container d = true /\
               tagAt doc d = Some "div" /\ textAt doc d = key) /\
  (forall p,
     In p (selectTextElementByAlias doc container key) ->
     strictlyBelow container p = true /\ tagAt doc p = Some "text" /\
     textAt doc p = key) /\
  (forall p,
     In p (selectTextElementContainingAlias doc container key) ->
     strictlyBelow container p = true /\ tagAt doc p = Some "text" /\
     includes (textAt doc p) key = true).
Proof.
  split; [|split; [|split; [|split]]].
  - intros sel p. unfold selectElementById.
    destruct (readDataId key); try discriminate.
    intros [= <-] Hin.
    destruct (querySelector doc container [[SelAttrEquals "data-id" key]])
      as [q|] eqn:E; [|destruct Hin].
    destruct Hin as [<-|[]]. split; [reflexivity|].
    apply querySelector_elem in E. destruct E as [Hm Hb].
    split; [exact Hb | apply matchesAt_attr, Hm].
  - intros p Hin. unfold selectElementByEdgeLabel in Hin.
    apply filtered_elem in Hin. destruct Hin as (Hb & Ht & HP).
    apply String.eqb_eq in HP. auto.
  - intros p. unfold selectDivElementByAlias.
    destruct (head _) as [d|] eqn:Hd; [|intros []].
    destruct (closest doc nodeClassSelector d) as [q|] eqn:Hq; [|intros []].
    intros [<-|[]]. split; [reflexivity|]. split; [eapply closest_matches, Hq|].
    exists d. split; [eapply closest_atOrAbove, Hq|].
    apply head_Some in Hd. destruct Hd as [l' Hd].
    assert (Hin : In d (filter (fun p => String.eqb (textAt doc p) key = true)
                          (querySelectorAll doc container (typeSelector "div")))).
    { rewrite Hd. left. reflexivity. }
    apply filtered_elem in Hin. destruct Hin as (Hb & Ht & HP).
    apply String.eqb_eq in HP. auto.
  - intros p Hin. unfold selectTextElementByAlias in Hin.
    apply filtered_elem in Hin. destruct Hin as (Hb & Ht & HP).
    apply String.eqb_eq in HP. auto.
  - intros p Hin. unfold selectTextElementContainingAlias in Hin.
    apply filtered_elem in Hin. exact Hin.
Qed.

End LocateFacts.

(** ** Text content *)

Lemma concat_cons (x : string) (xs : list string) :
  String.concat "" (x :: xs) = (x ++ String.concat "" xs)%string.
Proof.
  destruct xs as [|y ys]; simpl; [|reflexivity].
  symmetry. apply append_empty.
Qed.

Lemma concat_app (xs ys : list string) :
  String.concat "" (xs ++ ys)
  = (String.concat "" xs ++ String.concat "" ys)%string.
Proof.
  induction xs as [|x xs IH]; [reflexivity|].
  change ((x :: xs) ++ ys) with (x :: (xs ++ ys)).
  rewrite !concat_cons, IH, append_assoc. reflexivity.
Qed.

(** The text of a node holds the text of each node below it. *)
Lemma textContent_sub (r : list nat) :
  forall n m, getNode n r = Some m ->
  exists a c, textContent n = (a ++ textContent m ++ c)%string.
Proof.
  induction r as [|i r IH]; intros n m H.
  - injection H as <-. exists "", "". simpl. symmetry. apply append_empty.
  - simpl in H. destruct (childNodes n !! i) as [c0|] eqn:Hi; [|discriminate].
    destruct (IH c0 m H) as (a & c & Hac).
    destruct n as [s|t attrs ch]; [discriminate|]. simpl in Hi.
    apply list_elem_of_split_length in Hi. destruct Hi as (l1 & l2 & -> & _).
    exists (String.concat "" (map textContent l1) ++ a)%string,
           (c ++ String.concat "" (map textContent l2))%string.
    simpl. rewrite map_app, concat_app. simpl map. rewrite concat_cons, Hac.
    rewrite !append_assoc. reflexivity.
Qed.

Lemma includes_within (s u k : string) :
  (exists a c, u = (a ++ s ++ c)%string) ->
  includes s k = true -> includes u k = true.
Proof.
  intros (a & c & ->) H. apply includes_app_r, includes_app_l, H.
Qed.

Lemma textAt_below (doc : node) (container p : list nat) (k : string) :
  strictlyBelow container p = true ->
  includes (textAt doc p) k = true ->
  includes (textAt doc container) k = true.
Proof.
  intros Hb. apply strictlyBelow_app in Hb. destruct Hb as (r & -> & _).
  unfold textAt. rewrite getNode_app.
  destruct (getNode doc container) as [n|]; simpl; [|auto].
  destruct (getNode n r) as [m|] eqn:E.
  - apply includes_within, (textContent_sub r n m E).
  - intros H. apply (includes_within "" _ k); [|exact H].
    exists "", (textContent n). reflexivity.
Qed.

Lemma filter_none {A} (P : A -> Prop) `{!forall x, Decision (P x)} (l : list A) :
  (forall x, In x l -> ~ P x) -> filter P l = [].
Proof.
  intros Hno. destruct (filter P l) as [|x l'] eqn:E; [reflexivity|].
  assert (Hx : x ∈ filter P l) by (rewrite E; left).
  apply list_elem_of_filter in Hx. destruct Hx as [HP Hx].
  apply list_elem_of_In in Hx. destruct (Hno x Hx HP).
Qed.

Lemma forEach_app {A D} (f : A -> D -> outcome D) (xs ys : list A) (doc : D) :
  forEach f (xs ++ ys) doc = andThen (forEach f xs doc) (forEach f ys).
Proof.
  revert doc. induction xs as [|x xs IH]; intros doc; [reflexivity|].
  simpl. destruct (f x doc) as [d|e d|]; simpl; [apply IH | reflexivity | reflexivity].
Qed.

Section ProcessFacts2.

Context {platform : Platform}.

(** X18: a metric whose name is the [data-id] of no element below the
    container and occurs nowhere in the container's text matches nothing:
    processing it leaves the document as it is. *)
Theorem absent_metric_changes_nothing
  (container : list nat) (indicator : MetricIndicator) (options : DiagramOptions)
  (doc : node) :
  readDataId (metricName indicator) = ReadsAsAttribute ->
  querySelectorAll doc container [[SelAttrEquals "data-id" (metricName indicator)]]
  = [] ->
  includes (textAt doc container) (metricName indicator) = false ->
  processDiagramSeriesModel container indicator options doc = Done doc.
Proof.
  intros Hread Hid Htext.
  set (key := metricName indicator) in *.
  assert (Hno : forall t p, In p (querySelectorAll doc container (typeSelector t)) ->
                            includes (textAt doc p) key = false).
  { intros t p Hin. apply querySelectorAll_elem in Hin. destruct Hin as [_ Hb].
    destruct (includes (textAt doc p) key) eqn:E; [|reflexivity].
    rewrite (textAt_below doc container p key Hb E) in Htext. discriminate. }
  assert (Heq : forall t,
            filter (fun p => String.eqb (textAt doc p) key = true)
              (querySelectorAll doc container (typeSelector t)) = []).
  { intros t. apply filter_none. intros p Hin HP. apply String.eqb_eq in HP.
    pose proof (Hno t p Hin) as Hn. rewrite HP, includes_self in Hn. discriminate. }
  unfold processDiagramSeriesModel, selectElementById. fold key.
  rewrite Hread. unfold querySelector. rewrite Hid. simpl.
  unfold selectElementByEdgeLabel. rewrite Heq. simpl.
  unfold selectDivElementByAlias. rewrite Heq. simpl.
  unfold selectTextElementByAlias. rewrite Heq. simpl.
  unfold selectTextElementContainingAlias. rewrite filter_none; [reflexivity|].
  intros p Hin HP. rewrite (Hno "text" p Hin) in HP. discriminate.
Qed.

(** X19: a metric that only the lookup by text alias finds (a [text] element
    whose text is the metric's name) is never painted: the callback of
    [each] receives the datum, which the nodes of a rendered diagram do not
    have, and reading [getBBox] from it throws a [TypeError]; the document
    stays as it is. *)
Theorem text_alias_match_throws
  (container : list nat) (indicator : MetricIndicator) (options : DiagramOptions)
  (doc : node) :
  selectElementById doc container (metricName indicator) = Normal [] ->
  selectElementByEdgeLabel doc container (metricName indicator) = [] ->
  selectDivElementByAlias doc container (metricName indicator) = [] ->
  isEmpty (selectTextElementByAlias doc container (metricName indicator)) = false ->
  processDiagramSeriesModel container indicator options doc
  = Thrown (typeError "getBBox") doc.
Proof.
  intros H1 H2 H3 H4. unfold processDiagramSeriesModel.
  rewrite H1, H2, H3. simpl.
  destruct (selectTextElementByAlias doc container (metricName indicator))
    as [|t rest]; [discriminate|].
  reflexivity.
Qed.

(** X20: an indicator whose processing throws ends the styling pass there:
    the error leaves [updateDiagramStyle] with the document as the throwing
    call left it, so the indicators after it and the composites are not
    painted and no [style] element is appended. *)
Theorem updateDiagramStyle_stops_at_error
  (el svg : list nat) (models : list DiagramSeriesModel) (options : DiagramOptions)
  (diagramId : string) (doc painted left : node)
  (before after : list MetricIndicator) (bad : MetricIndicator) (e : JsError) :
  querySelector doc el (typeSelector "svg") = Some svg ->
  reduceModels models = before ++ bad :: after ->
  forEach (fun indicator d => processDiagramSeriesModel svg indicator options d)
    before (sizeTweaks options svg doc) = Done painted ->
  processDiagramSeriesModel svg bad options painted = Thrown e left ->
  updateDiagramStyle el models options diagramId doc = Thrown e left.
Proof.
  intros Hsvg Hmodels Hbefore Hbad. unfold updateDiagramStyle.
  rewrite Hsvg, Hmodels. fold (sizeTweaks options svg doc).
  rewrite forEach_app, Hbefore. simpl. rewrite Hbad. reflexivity.
Qed.

End ProcessFacts2.

Lemma absent_metric_changes_nothing_witness :
  processDiagramSeriesModel [0; 0] (sampleIndicator "memory" 1%float)
    (sampleOptions "" None) (demoDocument [demoSvg])
  = Done (demoDocument [demoSvg]).
Proof.
  apply (absent_metric_changes_nothing [0; 0] (sampleIndicator "memory" 1%float)
           (sampleOptions "" None) (demoDocument [demoSvg])); reflexivity.
Defined.

Lemma text_alias_match_throws_witness :
  processDiagramSeriesModel [0; 0] (sampleIndicator "GET /load now" 1%float)
    (sampleOptions "" None) (demoDocument [demoSvg])
  = Thrown (typeError "getBBox") (demoDocument [demoSvg]).
Proof.
  apply (text_alias_match_throws [0; 0] (sampleIndicator "GET /load now" 1%float)
           (sampleOptions "" None) (demoDocument [demoSvg])); reflexivity.
Defined.

Lemma updateDiagramStyle_stops_at_error_witness :
  updateDiagramStyle demoContainer
    [sampleSeries "memory" []; sampleSeries quotedName []; sampleSeries "cpu" []]
    (sampleOptions "" None) "diagram-1" (demoDocument [demoSvg])
  = Thrown {| errorName := "SyntaxError";
              message := selectorErrorMessage (dataIdSelectorText quotedName) |}
      (sizeTweaks (sampleOptions "" None) [0; 0] (demoDocument [demoSvg])).
Proof.
  apply (updateDiagramStyle_stops_at_error demoContainer [0; 0]
           [sampleSeries "memory" []; sampleSeries quotedName []; sampleSeries "cpu" []]
           (sampleOptions "" None) "diagram-1" (demoDocument [demoSvg])
           (sizeTweaks (sampleOptions "" None) [0; 0] (demoDocument [demoSvg]))
           (sizeTweaks (sampleOptions "" None) [0; 0] (demoDocument [demoSvg]))
           [ {| displayValue := {| text := "42"; numeric := 42%float; prefix := None;
                                   suffix := Some " %"; color := Some "red";
                                   title := Some "last" |};
                metricName := "memory"; valueName := Some "last";
                isComposite := None; originalName := None |} ]
           [ {| displayValue := {| text := "42"; numeric := 42%float; prefix := None;
                                   suffix := Some " %"; color := Some "red";
                                   title := Some "last" |};
                metricName := "cpu"; valueName := Some "last";
                isComposite := None; originalName := None |} ]
           {| displayValue := {| text := "42"; numeric := 42%float; prefix := None;
                                 suffix := Some " %"; color := Some "red";
                                 title := Some "last" |};
              metricName := quotedName; valueName := Some "last";
              isComposite := None; originalName := None |});
    vm_compute; reflexivity.
Defined.

(** ** Painting, again *)

Lemma getNode_updateNode_below (g : node -> node) (p r : list nat) :
  forall doc, getNode (updateNode (p ++ r) g doc) p = updateNode r g <$> getNode doc p.
Proof.
  induction p as [|i p IH]; intros doc; [reflexivity|].
  destruct doc as [s|t a ch]; [reflexivity|]. simpl.
  rewrite list_lookup_alter_eq. destruct (ch !! i); simpl; [apply IH | reflexivity].
Qed.

Lemma alter_last {A} (f : A -> A) (l : list A) (x : A) :
  alter f (length l) (l ++ [x]) = l ++ [f x].
Proof.
  replace (length l) with (length l + 0) by lia.
  rewrite alter_app_r. reflexivity.
Qed.

Section PaintFacts.

Context {platform : Platform}.

(** X21: [resizeGrouping] throws only on an empty selection; on any other it
    returns, and all it changes in the document is attributes: the tree of
    nodes and every text stay.  When the first node of the selection has no
    [g.label] ancestor nothing is changed at all. *)
Theorem resizeGrouping_only_attributes
  (element : list (list nat)) (nodeSize : NodeSizeOptions) (doc : node) :
  match resizeGrouping element nodeSize doc with
  | Done doc' => element <> [] /\ skeleton doc' = skeleton doc
  | Thrown e doc' => element = [] /\ e = typeError "closest" /\ doc' = doc
  | OutsideModel => False
  end /\
  (forall first,
     head element = Some first ->
     closest doc labelGroupSelector first = None ->
     resizeGrouping element nodeSize doc = Done doc).
Proof.
  split.
  - destruct element as [|first rest]; [simpl; auto|].
    destruct (resizeGrouping_skeleton (first :: rest) first nodeSize doc eq_refl)
      as (doc' & -> & Hs).
    split; [discriminate | exact Hs].
  - intros first Hf Hnone. unfold resizeGrouping. rewrite Hf, Hnone.
    destruct (closest doc (typeSelector "g") first); reflexivity.
Qed.

(** X22: painting by contained text, for a selection of one element: the
    element keeps its attributes and its children and gains one last child,
    a [tspan] of class [diagram-value] whose content is the formatted
    value. *)
Theorem styleSequenceDiagramEdgeLabel_appends
  (target : list nat) (indicator : MetricIndicator) (useBackground : bool)
  (nodeSize : NodeSizeOptions) (doc : node)
  (t : string) (a : list (string * string)) (ch : list node) :
  getNode doc target = Some (Element t a ch) ->
  exists doc' attrs,
    styleSequenceDiagramEdgeLabel [target] indicator useBackground nodeSize doc
    = Done doc' /\
    getNode doc' target
    = Some (Element t a
              (ch ++ [Element "tspan" attrs
                        (parseFragment "tspan" (formattedValueToString indicator))])) /\
    lookupAttr "class" attrs = Some "diagram-value".
Proof.
  intros Ht.
  set (value := formattedValueToString indicator).
  assert (Hdoc3 :
    getNode
      (setInnerHTML value (target ++ [length ch])
         (d3_classed "diagram-value" (target ++ [length ch])
            (updateNode target
               (fun e => withChildren (childNodes e ++ [Element "tspan" [] []]) e) doc)))
      target
    = Some (Element t a
              (ch ++ [Element "tspan" [("class", "diagram-value")]
                        (parseFragment "tspan" value)]))).
  { unfold setInnerHTML, d3_classed.
    rewrite !getNode_updateNode_below, getNode_updateNode_same, Ht. simpl.
    rewrite !alter_last. reflexivity. }
  assert (Hstyle : forall name v d attrs0 kids,
    getNode d target = Some (Element t a (ch ++ [Element "tspan" attrs0 kids])) ->
    lookupAttr "class" attrs0 = Some "diagram-value" ->
    exists attrs,
      getNode (d3_style name v (target ++ [length ch]) d) target
      = Some (Element t a (ch ++ [Element "tspan" attrs kids])) /\
      lookupAttr "class" attrs = Some "diagram-value").
  { intros name v d attrs0 kids Hd Hc. unfold d3_style.
    rewrite getNode_updateNode_below, Hd. simpl. rewrite alter_last.
    eexists. split; [reflexivity|].
    rewrite lookupAttr_storeAttr_other by discriminate. exact Hc. }
  unfold styleSequenceDiagramEdgeLabel, appendToEach, d3_append, appendChild.
  rewrite Ht. cbn [default childNodes fold_left]. fold value.
  destruct (truthyString (color indicator)) as [c|].
  - destruct useBackground.
    + destruct (Hstyle "background-color" c _ _ _ Hdoc3 eq_refl) as (attrs & Hg & Hc).
      eexists _, attrs. split; [reflexivity|]. split; [exact Hg | exact Hc].
    + destruct (Hstyle "color" c _ _ _ Hdoc3 eq_refl) as (attrs & Hg & Hc).
      eexists _, attrs. split; [reflexivity|]. split; [exact Hg | exact Hc].
  - eexists _, _. split; [reflexivity|]. split; [exact Hdoc3 | reflexivity].
Qed.

End PaintFacts.

Lemma styleSequenceDiagramEdgeLabel_appends_witness :
  exists doc' attrs,
    styleSequenceDiagramEdgeLabel [[0; 0; 1]] cpuIndicator true
      (nodeSize (sampleOptions "" None)) (demoDocument [demoSvg])
    = Done doc' /\
    getNode doc' [0; 0; 1]
    = Some (Element "text" [("class", "messageText")]
              ([TextNode "GET /load now"]
               ++ [Element "tspan" attrs
                     (parseFragment "tspan" (formattedValueToString cpuIndicator))])) /\
    lookupAttr "class" attrs = Some "diagram-value".
Proof.
  apply (styleSequenceDiagramEdgeLabel_appends [0; 0; 1] cpuIndicator true
           (nodeSize (sampleOptions "" None)) (demoDocument [demoSvg])
           "text" [("class", "messageText")] [TextNode "GET /load now"]).
  reflexivity.
Defined.


(** ** Edits that add nodes *)

Lemma updateNode_app (p r : list nat) (f : node -> node) :
  forall doc, updateNode (p ++ r) f doc = updateNode p (updateNode r f) doc.
Proof.
  induction p as [|i p IH]; intros doc; [reflexivity|].
  destruct doc as [s|t a ch]; [reflexivity|]. simpl. f_equal.
  apply list_alter_ext; [|reflexivity]. intros x _. apply IH.
Qed.

Lemma updateNode_compose (p : list nat) (f g : node -> node) :
  forall doc, updateNode p f (updateNode p g doc) = updateNode p (fun n => f (g n)) doc.
Proof.
  induction p as [|i p IH]; intros doc; [reflexivity|].
  destruct doc as [s|t a ch]; [reflexivity|]. simpl. f_equal.
  rewrite list_alter_alter_eq.
  apply list_alter_ext; [|reflexivity]. intros x _. apply IH.
Qed.

Lemma skeleton_updateNode_at (p : list nat) (f g : node -> node) :
  forall doc n,
  getNode doc p = Some n -> skeleton (f n) = skeleton (g n) ->
  skeleton (updateNode p f doc) = skeleton (updateNode p g doc).
Proof.
  induction p as [|i p IH]; intros doc n Hn Hfg.
  - injection Hn as <-. exact Hfg.
  - destruct doc as [s|t a ch]; [reflexivity|]. simpl in *. f_equal.
    destruct (ch !! i) as [c|] eqn:Hi; [|discriminate].
    apply list_elem_of_split_length in Hi. destruct Hi as (l1 & l2 & -> & ->).
    rewrite <- (Nat.add_0_r (length l1)), !alter_app_r. simpl.
    rewrite !map_app. simpl. f_equal. f_equal. apply (IH c n Hn Hfg).
Qed.

Section EdgeFacts.

Context {platform : Platform}.

(** X23: painting an edge label never throws on a selection that is not
    empty, and what it changes in the structure of the document is this:
    the parent of the first [span] of the selection keeps its children and
    gains a [br] and a [span] with the formatted value; every other change
    is a change of attributes. *)
Theorem styleFlowChartEdgeLabel_appends
  (first : list nat) (rest : list (list nat)) (indicator : MetricIndicator)
  (useBackground : bool) (nodeSize : NodeSizeOptions) (doc : node)
  (t : string) (a : list (string * string)) (ch : list node) :
  getNode doc (parentPath first) = Some (Element t a ch) ->
  exists doc',
    styleFlowChartEdgeLabel (first :: rest) indicator useBackground nodeSize doc
    = Done doc' /\
    skeleton doc'
    = skeleton
        (updateNode (parentPath first)
           (fun e =>
              withChildren
                (childNodes e
                 ++ [Element "br" [] [];
                     Element "span" []
                       (parseFragment "span" (formattedValueToString indicator))]) e)
           doc).
Proof.
  intros Hp.
  set (value := formattedValueToString indicator).
  set (parent := parentPath first) in *.
  unfold styleFlowChartEdgeLabel. cbn [head]. cbv zeta. fold parent. fold value.
  unfold d3_append, appendChild. cbn [fst snd].
  rewrite getNode_updateNode_same, Hp.
  cbn [fmap option_fmap option_map default from_option id childNodes withChildren].
  set (v := parent ++ [length (ch ++ [Element "br" [] []])]).
  set (doc4 := setInnerHTML value v (d3_classed "diagram-value" v _)).
  assert (H4 : skeleton doc4
               = skeleton
                   (updateNode parent
                      (fun e =>
                         withChildren
                           (childNodes e
                            ++ [Element "br" [] [];
                                Element "span" [] (parseFragment "span" value)]) e)
                      doc)).
  { unfold doc4, setInnerHTML, d3_classed, v.
    rewrite !updateNode_app, !updateNode_compose.
    apply (skeleton_updateNode_at parent _ _ doc _ Hp).
    simpl. rewrite !alter_last. simpl. rewrite <- app_assoc. simpl.
    rewrite !map_app. reflexivity. }
  destruct (resizeGrouping_skeleton [parent] parent nodeSize doc4 eq_refl)
    as (doc5 & -> & H5).
  cbn [andThen].
  destruct (truthyString (color indicator)) as [c|].
  - destruct useBackground.
    + destruct (fetchParentsUntilShapeElementFound _ first flowchartLabelSelector)
        as [shape|].
      * destruct (firstElementChild _ shape) as [child|]; eexists;
          (split; [reflexivity|]);
          rewrite ?skeleton_setAttribute, skeleton_d3_style, H5; exact H4.
      * eexists. split; [reflexivity|]. rewrite skeleton_d3_style, H5. exact H4.
    + eexists. split; [reflexivity|]. rewrite skeleton_d3_style, H5. exact H4.
  - eexists. split; [reflexivity|]. rewrite H5. exact H4.
Qed.

End EdgeFacts.

Lemma styleFlowChartEdgeLabel_appends_witness :
  exists doc',
    styleFlowChartEdgeLabel [[0; 0; 0; 1; 0; 0; 0]] cpuIndicator true
      (nodeSize (sampleOptions "" None)) (demoDocument [demoSvg])
    = Done doc' /\
    skeleton doc'
    = skeleton
        (updateNode [0; 0; 0; 1; 0; 0]
           (fun e =>
              withChildren
                (childNodes e
                 ++ [Element "br" [] [];
                     Element "span" []
                       (parseFragment "span" (formattedValueToString cpuIndicator))]) e)
           (demoDocument [demoSvg])).
Proof.
  apply (styleFlowChartEdgeLabel_appends [0; 0; 0; 1; 0; 0; 0] [] cpuIndicator true
           (nodeSize (sampleOptions "" None)) (demoDocument [demoSvg])
           "div" [] [Element "span" [("class", "nodeLabel")] [TextNode "CPU"]]).
  reflexivity.
Defined.


(** ** Instances of the statements on composites *)

Lemma reduceComposites_returns_tagged_witness :
  exists ind,
    fst (reduceComposites sample528 [sampleComposite true]) !! 1 = Some ind /\
    isComposite ind = Some true /\
    (exists c, In c [sampleComposite true] /\ metricName ind = name c) /\
    is_Some (originalName ind).
Proof.
  apply (reduceComposites_returns_tagged sample528 [sampleComposite true] 1).
  vm_compute. left. reflexivity.
Defined.

Lemma reduceComposites_frame_witness :
  fst (reduceComposites (sample528 ++ [sampleIndicator "d" 1%float])
         [sampleComposite true]) !! 3
  = Some (sampleIndicator "d" 1%float) /\
  ~ In 3 (snd (reduceComposites (sample528 ++ [sampleIndicator "d" 1%float])
                 [sampleComposite true])).
Proof.
  apply (reduceComposites_frame [sampleComposite true]
           (sample528 ++ [sampleIndicator "d" 1%float]) 3
           (sampleIndicator "d" 1%float)).
  - reflexivity.
  - intros c [<-|[]]. simpl. intros [H|[H|[H|[]]]]; discriminate H.
Defined.

Lemma reduceComposite_captures_witness :
  exists ind,
    sample528 !! 1 = Some ind /\
    forall (c2 : CompositeMetric) (x : MetricIndicator),
      In (1, x) (candidatesOf (fst (reduceComposite sample528 (sampleComposite true))) c2)
      <-> x = tagComposite ind "group" /\ In "group" (members c2).
Proof.
  apply (reduceComposite_captures sample528
           (fst (reduceComposite sample528 (sampleComposite true)))
           (sampleComposite true) 1).
  vm_compute. reflexivity.
Defined.

(** ** A pass over a page that changes *)

Section ChangingPageFacts.

Context {platform : Platform}.

Lemma renderIntoAt_steady (services : Services) (call : nat)
  (diagramId definition : string) (current : list nat) (doc : node) :
  renderIntoAt (steady (Some current)) services call diagramId definition doc
  = renderInto services call diagramId definition current doc.
Proof. reflexivity. Qed.

(** Over a page that stands still the pass is the one of [initializeMermaid]. *)
Lemma initializeMermaidIn_steady (props : DiagramPanelControllerProps)
  (services : Services) (diagramRef : option (list nat)) (doc : node) :
  initializeMermaidIn (steady diagramRef) props services doc
  = initializeMermaid props services diagramRef doc.
Proof.
  unfold initializeMermaidIn, initializeMermaid. cbn [initialize currentAt meanwhile steady].
  destruct diagramRef as [current|]; [|reflexivity].
  destruct (loadDiagramDefinition props services) as [definition|e|]; try reflexivity.
  rewrite !renderIntoAt_steady.
  destruct (renderInto services 0 _ _ current doc) as [d|e d|]; reflexivity.
Qed.

(** X10: the promise of a pass rejects in three ways only: the call of
    [mermaid.initialize], which stands before the [try], throws; loading the
    definition fails, and then no render was attempted; or both render
    calls were made and the panel is unmounted when the second has settled,
    so that the write to the container in the [catch] block throws a
    [TypeError].  An error of the renderer, of a binding function or of the
    styling does not reject the promise while the container is mounted. *)
Theorem initializeMermaidIn_rejections
  (host : Host) (props : DiagramPanelControllerProps) (services : Services)
  (doc : node) (e : JsError) :
  promise (initializeMermaidIn host props services doc) = Throw e ->
  initialize host = Throw e \/
  (initialize host = Normal tt /\ is_Some (currentAt host 0) /\
   loadDiagramDefinition props services = Throw e /\
   renderCalls (initializeMermaidIn host props services doc) = []) \/
  (initialize host = Normal tt /\ is_Some (currentAt host 0) /\
   e = nullWriteError "innerHTML" /\
   length (renderCalls (initializeMermaidIn host props services doc)) = 2 /\
   currentAt host 3 = None).
Proof.
  unfold initializeMermaidIn.
  destruct (initialize host) as [[]|e0|]; [|intros [= ->]; auto|discriminate].
  destruct (currentAt host 0) as [c0|] eqn:H0; [|discriminate].
  destruct (loadDiagramDefinition props services) as [definition|e'|];
    [|intros [= ->]; right; left; eauto|discriminate].
  set (primary := renderIntoAt host services 0 _ _ _).
  destruct primary as [d|e1 d|]; [| |discriminate].
  - cbn [andThen]. destruct (currentAt host 2) as [c2|] eqn:H2.
    + destruct (updateDiagramStyle c2 _ _ _ d); discriminate.
    + discriminate.
  - destruct (andThen _ _) as [d2|e2 d2|]; [discriminate| |discriminate].
    destruct (currentAt host 3) as [c3|] eqn:H3; [discriminate|].
    intros [= <-]. right. right. eauto 6.
Qed.

(** Over a page that stands still the promise rejects only when loading the
    definition fails. *)
Corollary initializeMermaid_steady_rejection
  (props : DiagramPanelControllerProps) (services : Services)
  (diagramRef : option (list nat)) (doc : node) (e : JsError) :
  promise (initializeMermaid props services diagramRef doc) = Throw e ->
  is_Some diagramRef /\ loadDiagramDefinition props services = Throw e.
Proof.
  unfold initializeMermaid. destruct diagramRef as [current|]; [|discriminate].
  destruct (loadDiagramDefinition props services) as [definition|e'|].
  - destruct (renderInto services 0 _ _ current doc) as [d|e1 d|].
    + destruct (andThen _ _); discriminate.
    + destruct (andThen _ _); discriminate.
    + discriminate.
  - simpl. intros [= ->]. split; [eauto | reflexivity].
  - discriminate.
Qed.

End ChangingPageFacts.

Lemma initializeMermaidIn_rejections_witness :
  let pass := initializeMermaidIn unmountingHost (sampleProps "graph LR; cpu" None [])
                (renderingServices Unmodelled) (demoDocument []) in
  initialize unmountingHost = Throw (nullWriteError "innerHTML") \/
  (initialize unmountingHost = Normal tt /\ is_Some (currentAt unmountingHost 0) /\
   loadDiagramDefinition (sampleProps "graph LR; cpu" None [])
     (renderingServices Unmodelled)
   = Throw (nullWriteError "innerHTML") /\
   renderCalls pass = []) \/
  (initialize unmountingHost = Normal tt /\ is_Some (currentAt unmountingHost 0) /\
   nullWriteError "innerHTML" = nullWriteError "innerHTML" /\
   length (renderCalls pass) = 2 /\
   currentAt unmountingHost 3 = None).
Proof.
  apply (initializeMermaidIn_rejections unmountingHost
           (sampleProps "graph LR; cpu" None []) (renderingServices Unmodelled)
           (demoDocument []) (nullWriteError "innerHTML")).
  vm_compute. reflexivity.
Defined.

(** A panel unmounted while its diagram is rendered: both render calls are
    made, nothing can be written, and the promise rejects although loading
    and rendering went well. *)
Example unmount_rejects :
  initializeMermaidIn unmountingHost (sampleProps "graph LR; cpu" None [])
    (renderingServices Unmodelled) (demoDocument [])
  = {| document := Element "div" [("class", "diagram-container")] [];
       renderCalls :=
         [("diagram-1",
           interpolatedOf (sampleProps "graph LR; cpu" None []) "graph LR; cpu");
          ("diagram-1", "graph LR; cpu")];
       promise := Throw (nullWriteError "innerHTML") |}.
Proof. vm_compute. reflexivity. Qed.

(** A call of [mermaid.initialize] that throws rejects the promise before
    the container is looked at. *)
Example initialize_failure_rejects (e : JsError) (doc : node) :
  initializeMermaidIn
    {| initialize := Throw e; currentAt := fun _ => Some demoContainer;
       meanwhile := fun _ d => d |}
    (sampleProps "graph LR; cpu" None []) (renderingServices Unmodelled) doc
  = {| document := doc; renderCalls := []; promise := Throw e |}.
Proof. reflexivity. Qed.

(** ** White space before a number *)

(** [parseInt] skips a no-break space (U+00A0) and a byte order mark
    (U+FEFF) as it skips a blank; a character that is no white space stops
    it. *)
Example parseInt_skips_white_space :
  Num.parseInt (String (ascii_of_nat 194) (String (ascii_of_nat 160) " 64.5")) = 64%float /\
  Num.parseInt (String (ascii_of_nat 239) (String (ascii_of_nat 187)
                  (String (ascii_of_nat 191) "30px"))) = 30%float /\
  Num.isNaN (Num.parseInt (String (ascii_of_nat 194) (String (ascii_of_nat 161) "64")))
  = true.
Proof. vm_compute. repeat split. Qed.
